(** * A Gemini proxy server (Express): the two versions of [server.js]

    The repository holds two versions of one file: [src/server.js] and
    [src/unnamed/part_000].  Both start a process that checks its API key,
    mounts a rate limiter on [/api/gemini] and serves one route, whose
    handler validates the prompt, calls [ai.models.generateContent] once and
    relays the text or an error.  They differ in the generation options, in
    the error message they build and in the rate limiter's message.

    The development has three layers:
    - [JS]: the part of the ECMAScript runtime the handlers rely on
      (values, truthiness, property reads, [ToString], the string methods
      [includes], [split] and [trim], completions and the trace of effects);
    - [ServerJs] and [Part000]: the two files, statement by statement;
    - the theorems about them.

    A run is a completion (normal, thrown, exited) together with the events
    it emitted: what it printed with [console.error], the upstream calls it
    made, the responses it sent, the port it listened on.  The upstream API
    is a function from the call's argument to a settled promise.

    [res.status] is the one of Express 5, which throws at a code that is no
    integer from 100 to 999, so that nothing is sent.  Left to the framework
    and not modelled: CORS, the parsing of the body (a request carries the
    value [express.json()] produced, [undefined] when there was no body to
    parse), response headers, the JSON text of a body (a response is the
    status and the value the handler passed), and what Express does with a
    handler whose promise rejects. *)

From Stdlib Require Import ZArith NArith List String Ascii Bool Lia.
From Stdlib Require Import Floats.SpecFloat.
From stdpp Require Import base strings gmap.
Import ListNotations.

Set Warnings "-register-all".

Local Open Scope Z_scope.
Local Open Scope list_scope.

(** ** The runtime *)

Module JS.

(** A JavaScript string is a sequence of UTF-16 code units. *)
Abbreviation jsstring := (list N).

(** The code units of an ASCII literal. *)
Fixpoint js (s : string) : jsstring :=
  match s with
  | EmptyString => []
  | String a s' => N_of_ascii a :: js s'
  end.

(** Numbers are IEEE 754 binary64 values. *)
Definition prec : Z := 53.
Definition emax : Z := 1024.

(** The values a JSON body, an upstream response or an upstream error is
    made of.  An object is the list of its own data properties, in order. *)
Inductive value : Type :=
| JUndefined
| JNull
| JBool (b : bool)
| JNum (x : spec_float)
| JStr (s : jsstring)
| JArr (elems : list value)
| JObj (props : list (string * value)).

(** The number [s * 10^t], rounded to nearest even as a numeric literal is. *)
Definition decimal (s : Z) (t : Z) : spec_float :=
  match t with
  | Zneg p =>
      match s with
      | Z0 => S754_zero false
      | Zpos m => SFdiv prec emax (S754_finite false m 0) (S754_finite false (10 ^ p) 0)
      | Zneg m => SFdiv prec emax (S754_finite true m 0) (S754_finite false (10 ^ p) 0)
      end
  | _ => binary_normalize prec emax (s * 10 ^ t) 0 false
  end.

Definition num (z : Z) : value := JNum (decimal z 0).

(** [ToBoolean]: the falsy values are [undefined], [null], [false], [+0],
    [-0], [NaN] and the empty string. *)
Definition ToBoolean (v : value) : bool :=
  match v with
  | JUndefined | JNull => false
  | JBool b => b
  | JNum (S754_zero _) | JNum S754_nan => false
  | JNum _ => true
  | JStr [] => false
  | JStr _ => true
  | JArr _ | JObj _ => true
  end.

(** *** Strings *)

Fixpoint prefixb (p s : jsstring) : bool :=
  match p, s with
  | [], _ => true
  | _ :: _, [] => false
  | a :: p', b :: s' => N.eqb a b && prefixb p' s'
  end.

(** [String.prototype.includes(pat)]. *)
Fixpoint String_includes (s pat : jsstring) : bool :=
  prefixb pat s ||
  match s with
  | [] => false
  | _ :: s' => String_includes s' pat
  end.

(** [String.prototype.split(sep)] for a string separator: [acc] holds the
    current piece reversed, [skip] the code units of a matched separator
    still to pass. *)
Fixpoint split_go (sep s acc : jsstring) (skip : nat) : list jsstring :=
  match s with
  | [] => [rev acc]
  | c :: s' =>
      match skip with
      | S k => split_go sep s' acc k
      | O =>
          if prefixb sep s
          then rev acc :: split_go sep s' [] (Nat.pred (length sep))
          else split_go sep s' (c :: acc) O
      end
  end.

Definition String_split (s sep : jsstring) : list jsstring :=
  match sep with
  | [] => map (fun c => [c]) s
  | _ :: _ => split_go sep s [] O
  end.

(** White space and line terminators, as [trim] strips them. *)
Definition is_white_space (c : N) : bool :=
  match c with
  | 9 | 10 | 11 | 12 | 13 | 32 | 160 | 5760 | 8232 | 8233 | 8239 | 8287
  | 12288 | 65279 => true
  | _ => (8192 <=? c) && (c <=? 8202)
  end%N.

Fixpoint trim_start (s : jsstring) : jsstring :=
  match s with
  | c :: s' => if is_white_space c then trim_start s' else s
  | [] => []
  end.

(** [String.prototype.trim()]. *)
Definition String_trim (s : jsstring) : jsstring :=
  rev (trim_start (rev (trim_start s))).

(** *** [Number::toString]

    The shortest decimal that reads back as the number, laid out as the
    language prescribes. *)

Fixpoint uint_units (d : Decimal.uint) : jsstring :=
  match d with
  | Decimal.Nil => []
  | Decimal.D0 d => 48%N :: uint_units d
  | Decimal.D1 d => 49%N :: uint_units d
  | Decimal.D2 d => 50%N :: uint_units d
  | Decimal.D3 d => 51%N :: uint_units d
  | Decimal.D4 d => 52%N :: uint_units d
  | Decimal.D5 d => 53%N :: uint_units d
  | Decimal.D6 d => 54%N :: uint_units d
  | Decimal.D7 d => 55%N :: uint_units d
  | Decimal.D8 d => 56%N :: uint_units d
  | Decimal.D9 d => 57%N :: uint_units d
  end.

(** The decimal digits of a positive integer, most significant first. *)
Definition digits (n : Z) : jsstring := uint_units (N.to_uint (Z.to_N n)).

(** The same finite number, field by field. *)
Definition same_float (x y : spec_float) : bool :=
  match x, y with
  | S754_finite s1 m1 e1, S754_finite s2 m2 e2 =>
      Bool.eqb s1 s2 && Pos.eqb m1 m2 && Z.eqb e1 e2
  | _, _ => false
  end.

(** The positive number [m * 2^e] divided by [10^t], as a fraction. *)
Definition scaled (m : positive) (e t : Z) : Z * Z :=
  (Zpos m * 2 ^ Z.max e 0 * 10 ^ Z.max (- t) 0,
   2 ^ Z.max (- e) 0 * 10 ^ Z.max t 0).

(** The least [n] from a lower estimate on with [m * 2^e < 10^n]. *)
Fixpoint magnitude (fuel : nat) (m : positive) (e n : Z) : Z :=
  match fuel with
  | O => n
  | S fuel' =>
      let '(a, b) := scaled m e n in
      if a <? b then n else magnitude fuel' m e (n + 1)
  end.

(** Of the two [k]-digit decimals next to [x = m * 2^e], the one that reads
    back as [x]; the nearer one when both do, the even one on a tie. *)
Definition nearest_digits (m : positive) (e n k : Z) : option (Z * Z) :=
  let t := n - k in
  let '(a, b) := scaled m e t in
  let lo := a / b in
  let r := a mod b in
  let x := S754_finite false m e in
  match same_float (decimal lo t) x, same_float (decimal (lo + 1) t) x with
  | true, true =>
      Some (if (2 * r <? b) || ((2 * r =? b) && Z.even lo) then lo else lo + 1, t)
  | true, false => Some (lo, t)
  | false, true => Some (lo + 1, t)
  | false, false => None
  end.

(** The fewest digits that read back: [k] grows until a decimal does (17
    digits always do). *)
Fixpoint shortest (fuel : nat) (m : positive) (e n k : Z) : Z * Z :=
  match fuel with
  | O => (Zpos m, e)
  | S fuel' =>
      match nearest_digits m e n k with
      | Some st => st
      | None => shortest fuel' m e n (k + 1)
      end
  end.

(** [s * 10^t] with the trailing zeros of [s] moved into the exponent. *)
Fixpoint strip_zeros (fuel : nat) (s t : Z) : Z * Z :=
  match fuel with
  | O => (s, t)
  | S fuel' =>
      if s mod 10 =? 0 then strip_zeros fuel' (s / 10) (t + 1) else (s, t)
  end.

Definition zeros (n : Z) : jsstring := repeat 48%N (Z.to_nat n).

(** The digits [ds] of a number below [10^n] and not below [10^(n-1)]. *)
Definition layout (ds : jsstring) (n : Z) : jsstring :=
  let k := Z.of_nat (length ds) in
  if (k <=? n) && (n <=? 21) then ds ++ zeros (n - k)
  else if (0 <? n) && (n <=? 21) then
    firstn (Z.to_nat n) ds ++ js "." ++ skipn (Z.to_nat n) ds
  else if (-6 <? n) && (n <=? 0) then js "0." ++ zeros (- n) ++ ds
  else
    let ex :=
      js "e" ++ (if n - 1 <? 0 then js "-" else js "+") ++ digits (Z.abs (n - 1)) in
    if k =? 1 then ds ++ ex
    else firstn 1 ds ++ js "." ++ skipn 1 ds ++ ex.

(** [Number::toString] of the positive number [m * 2^e]. *)
Definition positive_toString (m : positive) (e : Z) : jsstring :=
  let n :=
    magnitude 8 m e ((Zpos (digits2_pos m) + e - 1) * 30103 / 100000 - 2) in
  let '(s, t) := shortest 17 m e n 1 in
  let '(s, t) := strip_zeros 400 s t in
  let ds := digits s in
  layout ds (Z.of_nat (length ds) + t).

Definition Number_toString (x : spec_float) : jsstring :=
  match x with
  | S754_nan => js "NaN"
  | S754_zero _ => js "0"
  | S754_infinity false => js "Infinity"
  | S754_infinity true => js "-Infinity"
  | S754_finite s m e =>
      match binary_normalize prec emax (Zpos m) e false with
      | S754_finite _ m' e' =>
          (if s then js "-" else []) ++ positive_toString m' e'
      | _ => if s then js "-Infinity" else js "Infinity"
      end
  end.

(** *** Completions and effects *)

(** How an evaluation ends: with a value, with a thrown value, or with the
    process gone ([process.exit]). *)
Inductive completion (A : Type) : Type :=
| Normal (a : A)
| Throw (e : value)
| Exit (code : Z).
Arguments Normal {A} a.
Arguments Throw {A} e.
Arguments Exit {A} code.

(** What a run does to the world around it, in order. *)
Inductive event : Type :=
| ConsoleError (args : list value)      (* console.error(...args) *)
| GenerateContent (params : value)      (* ai.models.generateContent(params) *)
| Respond (status : value) (body : value) (* res.status(status).json(body) *)
| Listen (port : value).                (* app.listen(port, ...) *)

(** A computation: its completion and the events it emitted. *)
Definition M (A : Type) : Type := completion A * list event.

Definition ret {A} (a : A) : M A := (Normal a, []).
Definition emit (ev : event) : M unit := (Normal tt, [ev]).

Definition bind {A B} (m : M A) (k : A -> M B) : M B :=
  match m with
  | (Normal a, t1) => let '(c, t2) := k a in (c, t1 ++ t2)
  | (Throw e, t1) => (Throw e, t1)
  | (Exit n, t1) => (Exit n, t1)
  end.

(** [try { body } catch (error) { handler error }]. *)
Definition try_catch {A} (body : M A) (handler : value -> M A) : M A :=
  match body with
  | (Throw e, t1) => let '(c, t2) := handler e in (c, t1 ++ t2)
  | other => other
  end.

(** A computation with no effect but its completion. *)
Definition pure {A} (c : completion A) : M A := (c, []).

Declare Scope js_scope.
Delimit Scope js_scope with js.
Notation "x <- m ;; k" := (bind m (fun x => k))
  (at level 100, m at next level, right associativity) : js_scope.
Notation "m ;; k" := (bind m (fun _ => k))
  (at level 100, right associativity) : js_scope.

(** A [TypeError] as the handlers can observe one: its [message]. *)
Definition TypeError (message : jsstring) : value :=
  JObj [("message"%string, JStr message)].

Fixpoint lookup_prop (key : string) (props : list (string * value)) : option value :=
  match props with
  | [] => None
  | (k, v) :: props' => if String.eqb k key then Some v else lookup_prop key props'
  end.

(** The own data property [key] of [base], [undefined] when there is none
    (an array or a primitive has none of the names the handlers read). *)
Definition own (base : value) (key : string) : value :=
  match base with
  | JObj props =>
      match lookup_prop key props with
      | Some v => v
      | None => JUndefined
      end
  | _ => JUndefined
  end.

(** [base.key] for a property name that the built-in prototypes do not
    define (every name the handlers read is one: prompt, model, isJson,
    options, temperature, maxOutputTokens, text, message, response, status,
    data, error): the own property, and a [TypeError] on [undefined] and
    [null]. *)
Definition Get (base : value) (key : string) : completion value :=
  match base with
  | JUndefined =>
      Throw (TypeError (js "Cannot read properties of undefined (reading '"
                          ++ js key ++ js "')"))
  | JNull =>
      Throw (TypeError (js "Cannot read properties of null (reading '"
                          ++ js key ++ js "')"))
  | _ => Normal (own base key)
  end.

(** [base?.key]. *)
Definition GetOptional (base : value) (key : string) : completion value :=
  match base with
  | JUndefined | JNull => Normal JUndefined
  | _ => Get base key
  end.

(** [ToString], as a template literal applies it.  An object with an own
    data property [toString] has no callable conversion left; any other
    object prints as [[object Object]]; an array joins its elements. *)
Fixpoint ToString (v : value) : completion jsstring :=
  match v with
  | JUndefined => Normal (js "undefined")
  | JNull => Normal (js "null")
  | JBool true => Normal (js "true")
  | JBool false => Normal (js "false")
  | JNum x => Normal (Number_toString x)
  | JStr s => Normal s
  | JObj props =>
      match lookup_prop "toString" props with
      | Some _ => Throw (TypeError (js "Cannot convert object to primitive value"))
      | None => Normal (js "[object Object]")
      end
  | JArr elems =>
      (fix join (l : list value) : completion jsstring :=
         match l with
         | [] => Normal []
         | x :: l' =>
             let head :=
               match x with
               | JUndefined | JNull => Normal []
               | _ => ToString x
               end in
             match head, l' with
             | Normal s, [] => Normal s
             | Normal s, _ :: _ =>
                 match join l' with
                 | Normal r => Normal (s ++ js "," ++ r)
                 | other => other
                 end
             | other, _ => other
             end
         end) elems
  end.

(** *** Operators, methods and the host objects *)

(** [a || b] and [a && b] on evaluated operands. *)
Definition js_or (a b : value) : value := if ToBoolean a then a else b.
Definition js_and (a b : value) : value := if ToBoolean a then b else a.

(** The check a destructuring [const { first, ... } = source] makes before
    it reads any property. *)
Definition destructure (base : value) (source first : string) : completion unit :=
  match base with
  | JUndefined =>
      Throw (TypeError (js "Cannot destructure property '" ++ js first ++ js "' of '"
                          ++ js source ++ js "' as it is undefined."))
  | JNull =>
      Throw (TypeError (js "Cannot destructure property '" ++ js first ++ js "' of '"
                          ++ js source ++ js "' as it is null."))
  | _ => Normal tt
  end.

Definition not_a_function {A} (expr : string) : completion A :=
  Throw (TypeError (js expr ++ js " is not a function")).

Definition jsstring_eqb (a b : jsstring) : bool :=
  prefixb a b && prefixb b a.

(** [recv.includes(pat)] with a string [pat]: a substring test on a string,
    a membership test on an array; no other value has the method.  [expr]
    is the source text of the callee, which the [TypeError] quotes. *)
Definition call_includes (expr : string) (recv : value) (pat : jsstring)
  : completion value :=
  match recv with
  | JUndefined | JNull => Get recv "includes"
  | JStr s => Normal (JBool (String_includes s pat))
  | JArr elems =>
      Normal (JBool (existsb (fun x => match x with
                                       | JStr s => jsstring_eqb s pat
                                       | _ => false
                                       end) elems))
  | _ => not_a_function expr
  end.

(** [recv.split(sep)]: only a string has the method. *)
Definition call_split (expr : string) (recv : value) (sep : jsstring)
  : completion value :=
  match recv with
  | JUndefined | JNull => Get recv "split"
  | JStr s => Normal (JArr (map JStr (String_split s sep)))
  | _ => not_a_function expr
  end.

(** [recv[0]] on the array a [split] returned. *)
Definition index0 (recv : value) : completion value :=
  match recv with
  | JUndefined | JNull => Get recv "0"
  | JArr (x :: _) => Normal x
  | _ => Normal JUndefined
  end.

(** [recv.trim()]: only a string has the method. *)
Definition call_trim (expr : string) (recv : value) : completion value :=
  match recv with
  | JUndefined | JNull => Get recv "trim"
  | JStr s => Normal (JStr (String_trim s))
  | _ => not_a_function expr
  end.

(** How the promise of the upstream call settles. *)
Inductive settled : Type :=
| Fulfilled (response : value)
| Rejected (reason : value).

(** [await ai.models.generateContent(params)]: [ai] stands for the upstream
    API, which the repository does not contain. *)
Definition await_generateContent (ai : value -> settled) (params : value) : M value :=
  (match ai params with
   | Fulfilled response => Normal response
   | Rejected reason => Throw reason
   end, [GenerateContent params]).

Definition console_error (args : list value) : M unit := emit (ConsoleError args).

(** *** [JSON.stringify]

    Express quotes a refused status code with it. *)

Definition hex_digit (n : N) : N :=
  if (n <? 10)%N then (48 + n)%N else (87 + n)%N.

(** [UnicodeEscape]: a backslash, [u] and four lowercase hexadecimal digits. *)
Definition UnicodeEscape (c : N) : jsstring :=
  js "\u" ++ [hex_digit ((c / 4096) mod 16); hex_digit ((c / 256) mod 16);
              hex_digit ((c / 16) mod 16); hex_digit (c mod 16)]%N.

Definition is_leading_surrogate (c : N) : bool := ((55296 <=? c) && (c <=? 56319))%N.
Definition is_trailing_surrogate (c : N) : bool := ((56320 <=? c) && (c <=? 57343))%N.

Definition quote_unit (c : N) : jsstring :=
  if (c =? 8)%N then js "\b"
  else if (c =? 9)%N then js "\t"
  else if (c =? 10)%N then js "\n"
  else if (c =? 12)%N then js "\f"
  else if (c =? 13)%N then js "\r"
  else if (c =? 34)%N then [92%N; 34%N]
  else if (c =? 92)%N then [92%N; 92%N]
  else if (c <? 32)%N then UnicodeEscape c
  else [c].

(** The inside of [QuoteJSONString]: a surrogate pair stays, a lone
    surrogate is escaped. *)
Fixpoint quote_units (s : jsstring) : jsstring :=
  match s with
  | [] => []
  | c :: s' =>
      if is_leading_surrogate c then
        match s' with
        | d :: s'' =>
            if is_trailing_surrogate d then c :: d :: quote_units s''
            else UnicodeEscape c ++ quote_units s'
        | [] => UnicodeEscape c
        end
      else if is_trailing_surrogate c then UnicodeEscape c ++ quote_units s'
      else quote_unit c ++ quote_units s'
  end.

Definition QuoteJSONString (s : jsstring) : jsstring :=
  [34%N] ++ quote_units s ++ [34%N].

Fixpoint join_comma (l : list jsstring) : jsstring :=
  match l with
  | [] => []
  | [s] => s
  | s :: l' => s ++ js "," ++ join_comma l'
  end.

(** [JSON.stringify(v)]: [None] is [undefined], the result for [undefined]
    itself.  An array prints [undefined] as [null]; an object leaves a
    property that holds [undefined] out. *)
Fixpoint JSON_stringify (v : value) : option jsstring :=
  match v with
  | JUndefined => None
  | JNull => Some (js "null")
  | JBool true => Some (js "true")
  | JBool false => Some (js "false")
  | JNum S754_nan | JNum (S754_infinity _) => Some (js "null")
  | JNum x => Some (Number_toString x)
  | JStr s => Some (QuoteJSONString s)
  | JArr elems =>
      Some (js "[" ++
            join_comma ((fix items (l : list value) : list jsstring :=
                           match l with
                           | [] => []
                           | x :: l' =>
                               match JSON_stringify x with
                               | Some s => s
                               | None => js "null"
                               end :: items l'
                           end) elems) ++ js "]")
  | JObj props =>
      Some (js "{" ++
            join_comma ((fix members (l : list (string * value)) : list jsstring :=
                           match l with
                           | [] => []
                           | (k, x) :: l' =>
                               match JSON_stringify x with
                               | Some s => (QuoteJSONString (js k) ++ js ":" ++ s) :: members l'
                               | None => members l'
                               end
                           end) props) ++ js "}")
  end.

(** A [RangeError], by its [message]. *)
Definition RangeError (message : jsstring) : value :=
  JObj [("message"%string, JStr message)].

(** The integer a number is, if it is one. *)
Definition integer_value (x : spec_float) : option Z :=
  match x with
  | S754_zero _ => Some 0
  | S754_finite s m e =>
      let sign := if s then -1 else 1 in
      if 0 <=? e then Some (sign * (Zpos m * 2 ^ e))
      else if Zpos m mod 2 ^ (- e) =? 0 then Some (sign * (Zpos m / 2 ^ (- e)))
      else None
  | _ => None
  end.

(** The message of the error [res.status] throws at a refused code. *)
Definition invalid_status_code (code : value) (rule : string) : jsstring :=
  js "Invalid status code: "
  ++ match JSON_stringify code with
     | Some s => s
     | None => js "undefined"
     end
  ++ js ". Status code must be " ++ js rule.

(** [res.status(code)] (Express 5): the code must pass [Number.isInteger]
    and lie from 100 to 999. *)
Definition res_status (code : value) : completion unit :=
  match code with
  | JNum x =>
      match integer_value x with
      | Some z =>
          if (z <? 100) || (999 <? z)
          then Throw (RangeError (invalid_status_code code
                                    "greater than 99 and less than 1000."))
          else Normal tt
      | None => Throw (TypeError (invalid_status_code code "an integer."))
      end
  | _ => Throw (TypeError (invalid_status_code code "an integer."))
  end.

(** [res.json(body)]: the status is the response's default, 200. *)
Definition res_json (body : value) : M unit := emit (Respond (num 200) body).

(** [json(body)] on the response [res.status(code)] returned. *)
Definition json_with_status (code body : value) : M unit := emit (Respond code body).

(** [res.status(code).json(body)] for a [body] that is a value already:
    nothing is sent when [res.status] throws.  Where the body is still to
    be evaluated, that happens between the two calls. *)
Definition res_status_json (code body : value) : M unit :=
  bind (pure (res_status code)) (fun _ => json_with_status code body).

Definition process_exit {A} (code : Z) : M A := (Exit code, []).

(** [process.env.NAME]. *)
Definition env_get (env : gmap string jsstring) (name : string) : value :=
  match env !! name with
  | Some s => JStr s
  | None => JUndefined
  end.

(** What a trace tells: the upstream calls and the responses, in order. *)
Fixpoint upstream_calls (t : list event) : list value :=
  match t with
  | [] => []
  | GenerateContent params :: t' => params :: upstream_calls t'
  | _ :: t' => upstream_calls t'
  end.

Fixpoint responses (t : list event) : list (value * value) :=
  match t with
  | [] => []
  | Respond status body :: t' => (status, body) :: responses t'
  | _ :: t' => responses t'
  end.

Fixpoint listens (t : list event) : list value :=
  match t with
  | [] => []
  | Listen port :: t' => port :: listens t'
  | _ :: t' => listens t'
  end.

End JS.

(** ** The rate limiter *)

Module RateLimit.
Import JS.

(** The options both files pass to [rateLimit]. *)
Record options : Type := {
  windowMs : Z;
  max : Z;
  standardHeaders : bool;
  legacyHeaders : bool;
  message : value
}.

(** Modelled from the spec: what the limiter keeps per source IP, the count
    of the current window and the time the window ends. *)
Record client : Type := { totalHits : Z; resetTime : Z }.

(** Modelled from the spec: the store of the [express-rate-limit] package,
    which the repository only configures.  The spec gives its contract: a
    count of requests per source IP within a fixed window.  A window opens
    with the first request of a key and lasts [windowMs]. *)
Definition increment (o : options) (now : Z) (key : string)
    (store : gmap string client) : client * gmap string client :=
  let fresh := {| totalHits := 0; resetTime := now + windowMs o |} in
  let c :=
    match store !! key with
    | Some c => if resetTime c <=? now then fresh else c
    | None => fresh
    end in
  let c' := {| totalHits := totalHits c + 1; resetTime := resetTime c |} in
  (c', <[key := c']> store).

(** Modelled from the spec: the middleware [rateLimit(options)] of the
    [express-rate-limit] package.  A request over the quota is answered at
    once with status 429 and the configured message, and does not reach the
    handler; any other is passed on ([None]).  The rate-limit headers are
    left out. *)
Definition middleware (o : options) (now : Z) (key : string)
    (store : gmap string client) : gmap string client * option (value * value) :=
  let '(c, store') := increment o now key store in
  if max o <? totalHits c then (store', Some (num 429, message o))
  else (store', None).

End RateLimit.

(** A request as the route sees it: when it came, from where, and the body
    [express.json()] parsed. *)
Record request : Type := {
  arrival : Z;
  ip : string;
  req_body : JS.value
}.

(** ** [src/server.js] *)

Module ServerJs.
Import JS.
Local Open Scope js_scope.

(** [process.env.GEMINI_API_KEY] missing: the two diagnostics. *)
Definition fatal_message : value :=
  JStr (js "FATAL: GEMINI_API_KEY environment variable is not set.").
Definition restart_message : value :=
  JStr (js "Please set the key and restart: export GEMINI_API_KEY="
          ++ [34%N] ++ js "YOUR_API_KEY" ++ [34%N]).

(** The file from its first statement to [app.listen]: the configuration,
    the guard on the key, then the server start.  Creating the client and
    the application and mounting the middleware emit nothing; the callback
    of [app.listen] only prints a banner and is left out. *)
Definition main (env : gmap string jsstring) : M unit :=
  let PORT := js_or (env_get env "PORT") (num 3000) in
  let API_KEY := env_get env "GEMINI_API_KEY" in
  (if negb (ToBoolean API_KEY) then
     console_error [fatal_message] ;;
     console_error [restart_message] ;;
     process_exit 1
   else ret tt) ;;
  emit (Listen PORT).

Definition apiLimiter : RateLimit.options := {|
  RateLimit.windowMs := 15 * 60 * 1000;
  RateLimit.max := 100;
  RateLimit.standardHeaders := true;
  RateLimit.legacyHeaders := false;
  RateLimit.message :=
    JObj [("error"%string, JStr (js "Too many requests, please try again later."))]
|}.

Definition safetySettings : value :=
  JArr [JObj [("category"%string, JStr (js "HARM_CATEGORY_HARASSMENT"));
              ("threshold"%string, JStr (js "BLOCK_MEDIUM_AND_ABOVE"))]].

(** The [catch (error)] block of the handler. *)
Definition on_error (error : value) : M unit :=
  message <- pure (Get error "message") ;;
  console_error [JStr (js "Gemini API Error:"); message] ;;
  (* error.response && error.response.status ? error.response.status : 500 *)
  response <- pure (Get error "response") ;;
  has_status <- (if ToBoolean response then pure (Get response "status")
                 else ret response) ;;
  statusCode <- (if ToBoolean has_status then
                   response <- pure (Get error "response") ;;
                   pure (Get response "status")
                 else ret (num 500)) ;;
  (* error.response && error.response.data
       ? error.response.data.error.message : 'Internal Server Error' *)
  response <- pure (Get error "response") ;;
  has_data <- (if ToBoolean response then pure (Get response "data")
               else ret response) ;;
  errorMessage <- (if ToBoolean has_data then
                     response <- pure (Get error "response") ;;
                     data <- pure (Get response "data") ;;
                     err <- pure (Get data "error") ;;
                     pure (Get err "message")
                   else ret (JStr (js "Internal Server Error"))) ;;
  (* res.status(statusCode).json({ error: `...${errorMessage}`, ... }):
     the status is set before the argument of json is evaluated *)
  pure (res_status statusCode) ;;
  text <- pure (ToString errorMessage) ;;
  json_with_status statusCode
    (JObj [("error"%string, JStr (js "Failed to call Gemini API: " ++ text));
           ("message"%string, errorMessage);
           ("code"%string, statusCode)]).

(** The handler of [POST /api/gemini]. *)
Definition handler (ai : value -> settled) (body : value) : M unit :=
  pure (destructure body "req.body" "prompt") ;;
  prompt <- pure (Get body "prompt") ;;
  model <- pure (Get body "model") ;;
  isJson <- pure (Get body "isJson") ;;
  if negb (ToBoolean prompt) then
    res_status_json (num 400)
      (JObj [("error"%string, JStr (js "Missing prompt in request body."))])
  else
    let temperature :=
      if ToBoolean isJson then JNum (decimal 2 (-1)) else JNum (decimal 7 (-1)) in
    let responseMimeType :=
      if ToBoolean isJson then JStr (js "application/json") else JStr (js "text/plain") in
    try_catch
      (response <- await_generateContent ai
         (JObj [("model"%string, js_or model (JStr (js "gemini-2.5-flash")));
                ("contents"%string,
                 JArr [JObj [("role"%string, JStr (js "user"));
                             ("parts"%string, JArr [JObj [("text"%string, prompt)]])]]);
                ("config"%string,
                 JObj [("temperature"%string, temperature);
                       ("maxOutputTokens"%string, num 2048);
                       ("responseMimeType"%string, responseMimeType);
                       ("safetySettings"%string, safetySettings)])]) ;;
       text <- pure (Get response "text") ;;
       res_json (JObj [("text"%string, text)]))
      on_error.

(** The route with its rate limiter in front: [app.use('/api/gemini',
    apiLimiter)], then the handler.  The limiter keys its counts by the
    source IP. *)
Definition api_gemini (ai : value -> settled) (r : request)
    (store : gmap string RateLimit.client)
  : gmap string RateLimit.client * M unit :=
  match RateLimit.middleware apiLimiter (arrival r) (ip r) store with
  | (store', Some (status, body)) => (store', res_status_json status body)
  | (store', None) => (store', handler ai (req_body r))
  end.

(** The requests of a run, served in order from a given store. *)
Fixpoint serve (ai : value -> settled) (rs : list request)
    (store : gmap string RateLimit.client)
  : gmap string RateLimit.client * list (M unit) :=
  match rs with
  | [] => (store, [])
  | r :: rs' =>
      let '(store1, out) := api_gemini ai r store in
      let '(store2, outs) := serve ai rs' store1 in
      (store2, out :: outs)
  end.

End ServerJs.

(** ** [src/unnamed/part_000] *)

Module Part000.
Import JS.
Local Open Scope js_scope.

(** [process.env.GEMINI_API_KEY] missing: the two diagnostics. *)
Definition fatal_message : value :=
  JStr (js "FATAL: GEMINI_API_KEY environment variable is not set.").
Definition restart_message : value :=
  JStr (js "Please set the key and restart: export GEMINI_API_KEY="
          ++ [34%N] ++ js "YOUR_API_KEY" ++ [34%N]).

(** The file from its first statement to [app.listen]: the configuration,
    the guard on the key, then the server start.  Creating the client and
    the application and mounting the middleware emit nothing; the callback
    of [app.listen] only prints a banner and is left out. *)
Definition main (env : gmap string jsstring) : M unit :=
  let PORT := js_or (env_get env "PORT") (num 3000) in
  let API_KEY := env_get env "GEMINI_API_KEY" in
  (if negb (ToBoolean API_KEY) then
     console_error [fatal_message] ;;
     console_error [restart_message] ;;
     process_exit 1
   else ret tt) ;;
  emit (Listen PORT).

Definition apiLimiter : RateLimit.options := {|
  RateLimit.windowMs := 15 * 60 * 1000;
  RateLimit.max := 100;
  RateLimit.standardHeaders := true;
  RateLimit.legacyHeaders := false;
  RateLimit.message :=
    JObj [("error"%string,
           JStr (js "Too many requests, please try again later. (Proxy Rate Limit)"))]
|}.

Definition safetySettings : value :=
  JArr [JObj [("category"%string, JStr (js "HARM_CATEGORY_HARASSMENT"));
              ("threshold"%string, JStr (js "BLOCK_MEDIUM_AND_ABOVE"))];
        JObj [("category"%string, JStr (js "HARM_CATEGORY_DANGEROUS_CONTENT"));
              ("threshold"%string, JStr (js "BLOCK_MEDIUM_AND_ABOVE"))]].

(** The [catch (error)] block of the handler. *)
Definition on_error (error : value) : M unit :=
  message <- pure (Get error "message") ;;
  console_error [JStr (js "Gemini API Error:"); message] ;;
  message <- pure (Get error "message") ;;
  invalid <- pure (call_includes "error.message.includes" message
                     (js "API_KEY_INVALID")) ;;
  apiErrorMessage <-
    (if ToBoolean invalid then ret (JStr (js "API Key is invalid or not authorized."))
     else
       message <- pure (Get error "message") ;;
       parts <- pure (call_split "error.message.split" message (js "at GoogleGenAI")) ;;
       first <- pure (index0 parts) ;;
       trimmed <- pure (call_trim "error.message.split(...)[0].trim" first) ;;
       ret (js_or trimmed (JStr (js "Internal Server Error")))) ;;
  (* res.status(500).json({ error: `...${apiErrorMessage}`, code: 500 }) *)
  pure (res_status (num 500)) ;;
  text <- pure (ToString apiErrorMessage) ;;
  json_with_status (num 500)
    (JObj [("error"%string, JStr (js "Failed to call Gemini API: " ++ text));
           ("code"%string, num 500)]).

(** The handler of [POST /api/gemini]. *)
Definition handler (ai : value -> settled) (body : value) : M unit :=
  pure (destructure body "req.body" "prompt") ;;
  prompt <- pure (Get body "prompt") ;;
  model <- pure (Get body "model") ;;
  isJson <- pure (Get body "isJson") ;;
  options <- pure (Get body "options") ;;
  if negb (ToBoolean prompt) then
    res_status_json (num 400)
      (JObj [("error"%string, JStr (js "Missing prompt in request body."))])
  else
    temperature <- pure (GetOptional options "temperature") ;;
    maxOutputTokens <- pure (GetOptional options "maxOutputTokens") ;;
    let config :=
      [("temperature"%string,
        js_or temperature
          (if ToBoolean isJson then JNum (decimal 2 (-1)) else JNum (decimal 7 (-1))));
       ("maxOutputTokens"%string, js_or maxOutputTokens (num 2048));
       ("responseMimeType"%string,
        if ToBoolean isJson then JStr (js "application/json") else JStr (js "text/plain"))] in
    try_catch
      (response <- await_generateContent ai
         (JObj [("model"%string, js_or model (JStr (js "gemini-2.5-flash")));
                ("contents"%string,
                 JArr [JObj [("role"%string, JStr (js "user"));
                             ("parts"%string, JArr [JObj [("text"%string, prompt)]])]]);
                ("config"%string,
                 JObj (config ++ [("safetySettings"%string, safetySettings)]))]) ;;
       text <- pure (Get response "text") ;;
       res_json (JObj [("text"%string, text)]))
      on_error.

(** The route with its rate limiter in front: [app.use('/api/gemini',
    apiLimiter)], then the handler.  The limiter keys its counts by the
    source IP. *)
Definition api_gemini (ai : value -> settled) (r : request)
    (store : gmap string RateLimit.client)
  : gmap string RateLimit.client * M unit :=
  match RateLimit.middleware apiLimiter (arrival r) (ip r) store with
  | (store', Some (status, body)) => (store', res_status_json status body)
  | (store', None) => (store', handler ai (req_body r))
  end.

(** The requests of a run, served in order from a given store. *)
Fixpoint serve (ai : value -> settled) (rs : list request)
    (store : gmap string RateLimit.client)
  : gmap string RateLimit.client * list (M unit) :=
  match rs with
  | [] => (store, [])
  | r :: rs' =>
      let '(store1, out) := api_gemini ai r store in
      let '(store2, outs) := serve ai rs' store1 in
      (store2, out :: outs)
  end.

End Part000.

(** ** What the theorems speak of *)

Import JS.

Definition nullish (v : value) : bool :=
  match v with
  | JUndefined | JNull => true
  | _ => false
  end.

(** The generation parameter [key] of each upstream call of a run. *)
Definition upstream_config (out : M unit) (key : string) : list value :=
  map (fun params => own (own params "config") key) (upstream_calls (snd out)).

(** The temperature both files fall back to. *)
Definition default_temperature (isJson : value) : value :=
  if ToBoolean isJson then JNum (decimal 2 (-1)) else JNum (decimal 7 (-1)).

(** Every upstream call of the run [out] was rejected with [e], or
    fulfilled with [r]. *)
Definition rejected_with (ai : value -> settled) (out : M unit) (e : value) : Prop :=
  forall p, In p (upstream_calls (snd out)) -> ai p = Rejected e.

Definition fulfilled_with (ai : value -> settled) (out : M unit) (r : value) : Prop :=
  forall p, In p (upstream_calls (snd out)) -> ai p = Fulfilled r.

(** The two shapes of a response body: [{ text }] with a string, and an
    object with an [error] string and a [code] number but no [text]. *)
Definition is_GenerationResult (body : value) : bool :=
  match body with
  | JObj [(k, JStr _)] => String.eqb k "text"
  | _ => false
  end.

Definition is_GenerationError (body : value) : bool :=
  match body with
  | JObj props =>
      match lookup_prop "error" props, lookup_prop "code" props, lookup_prop "text" props with
      | Some (JStr _), Some (JNum _), None => true
      | _, _, _ => false
      end
  | _ => false
  end.

(** The run ended normally and sent exactly one response, of one of the
    two shapes and not of both. *)
Definition one_response (out : M unit) : Prop :=
  fst out = Normal tt /\
  exists status body,
    responses (snd out) = [(status, body)] /\
    xorb (is_GenerationResult body) (is_GenerationError body) = true.

(** What [server.js] relays as the message of an error. *)
Definition relayed_message (e : value) : value :=
  let response := own e "response" in
  if ToBoolean (js_and response (own response "data"))
  then own (own (own response "data") "error") "message"
  else JStr (js "Internal Server Error").

(** The status [server.js] recovers from an error. *)
Definition recovered_status (e : value) : value :=
  let response := own e "response" in
  if ToBoolean (js_and response (own response "status"))
  then own response "status"
  else num 500.

(** The errors the [catch] block of [part_000] can read: those whose
    [message] is a string, or an array that holds the string
    "API_KEY_INVALID" (an array has an [includes] too, but no [split]). *)
Definition part_000_readable (e : value) : bool :=
  match own e "message" with
  | JStr _ => true
  | JArr elems =>
      existsb (fun x => match x with
                        | JStr s => jsstring_eqb s (js "API_KEY_INVALID")
                        | _ => false
                        end) elems
  | _ => false
  end.

(** A status [res.status] accepts. *)
Definition valid_status (code : value) : bool :=
  match res_status code with
  | Normal _ => true
  | _ => false
  end.

(** The errors the [catch] block of [server.js] can answer: not [undefined]
    or [null]; when [response] and [response.data] are truthy, with an
    [error] in the data that is not [undefined] or [null]; with a relayed
    message that converts to a string; and with a recovered status that
    [res.status] accepts. *)
Definition server_js_readable (e : value) : bool :=
  negb (nullish e) &&
  (let response := own e "response" in
   if ToBoolean (js_and response (own response "data"))
   then negb (nullish (own (own response "data") "error"))
   else true) &&
  match ToString (relayed_message e) with
  | Normal _ => true
  | _ => false
  end &&
  valid_status (recovered_status e).

(** A [catch] block that ran to its end with one response sent, or threw a
    [TypeError] with none sent; the error [server.js] throws may be the
    [RangeError] of [res.status] too. *)
Definition answered_once (out : M unit) : Prop :=
  fst out = Normal tt /\ exists status body, responses (snd out) = [(status, body)].

Definition threw_unanswered (out : M unit) : Prop :=
  (exists message, fst out = Throw (TypeError message)) /\ responses (snd out) = [].

Definition threw_error_unanswered (out : M unit) : Prop :=
  (exists message,
      fst out = Throw (TypeError message) \/ fst out = Throw (RangeError message)) /\
  responses (snd out) = [].

(** What [server.js] answers to the error [e] whose relayed message
    converts to [text]. *)
Definition server_js_answer (e : value) (text : jsstring) : value * value :=
  (recovered_status e,
   JObj [("error"%string, JStr (js "Failed to call Gemini API: " ++ text));
         ("message"%string, relayed_message e);
         ("code"%string, recovered_status e)]).

(** The argument of the upstream call, from the fields of the body. *)
Definition contents_of (prompt : value) : value :=
  JArr [JObj [("role"%string, JStr (js "user"));
              ("parts"%string, JArr [JObj [("text"%string, prompt)]])]].

Definition ServerJs_params (body : value) : value :=
  JObj [("model"%string, js_or (own body "model") (JStr (js "gemini-2.5-flash")));
        ("contents"%string, contents_of (own body "prompt"));
        ("config"%string,
         JObj [("temperature"%string, default_temperature (own body "isJson"));
               ("maxOutputTokens"%string, num 2048);
               ("responseMimeType"%string,
                if ToBoolean (own body "isJson") then JStr (js "application/json")
                else JStr (js "text/plain"));
               ("safetySettings"%string, ServerJs.safetySettings)])].

Definition Part000_params (body : value) : value :=
  JObj [("model"%string, js_or (own body "model") (JStr (js "gemini-2.5-flash")));
        ("contents"%string, contents_of (own body "prompt"));
        ("config"%string,
         JObj [("temperature"%string,
                js_or (own (own body "options") "temperature")
                  (default_temperature (own body "isJson")));
               ("maxOutputTokens"%string,
                js_or (own (own body "options") "maxOutputTokens") (num 2048));
               ("responseMimeType"%string,
                if ToBoolean (own body "isJson") then JStr (js "application/json")
                else JStr (js "text/plain"));
               ("safetySettings"%string, Part000.safetySettings)])].

(** The message [part_000] puts after its prefix, for an error message [m]. *)
Definition apiErrorMessage (m : jsstring) : jsstring :=
  if String_includes m (js "API_KEY_INVALID")
  then js "API Key is invalid or not authorized."
  else
    match String_trim (hd [] (String_split m (js "at GoogleGenAI"))) with
    | [] => js "Internal Server Error"
    | t => t
    end.

(** The requests of [rs] that come from the address [a]. *)
Definition from_ip (a : string) (rs : list request) : list request :=
  filter (fun q => ip q = a) rs.

(** Every error the upstream rejected a call of the run [out] with has
    the given shape. *)
Definition rejects_only (ai : value -> settled) (out : M unit)
    (shape : value -> bool) : Prop :=
  forall p e, In p (upstream_calls (snd out)) -> ai p = Rejected e -> shape e = true.

(** Every response the upstream fulfilled a call of the run [out] with has
    the given shape. *)
Definition fulfils_only (ai : value -> settled) (out : M unit)
    (shape : value -> bool) : Prop :=
  forall p r, In p (upstream_calls (snd out)) -> ai p = Fulfilled r -> shape r = true.

(** A fulfilment the handler turns into a response of one of the two
    shapes: a response with a string [text], or none at all ([undefined] or
    [null], which the [catch] block answers). *)
Definition has_text (r : value) : bool :=
  nullish r ||
  match own r "text" with
  | JStr _ => true
  | _ => false
  end.

(** The route of either file, for its limiter options and its handler. *)
Definition route (o : RateLimit.options) (handler : value -> M unit) (r : request)
    (store : gmap string RateLimit.client) : gmap string RateLimit.client * M unit :=
  match RateLimit.middleware o (arrival r) (ip r) store with
  | (store', Some (status, body)) => (store', res_status_json status body)
  | (store', None) => (store', handler (req_body r))
  end.

Fixpoint serve_with (o : RateLimit.options) (handler : value -> M unit)
    (rs : list request) (store : gmap string RateLimit.client)
  : gmap string RateLimit.client * list (M unit) :=
  match rs with
  | [] => (store, [])
  | r :: rs' =>
      let '(store1, out) := route o handler r store in
      let '(store2, outs) := serve_with o handler rs' store1 in
      (store2, out :: outs)
  end.

(** The count the store holds for the address [a]. *)
Definition hits (a : string) (store : gmap string RateLimit.client) : Z :=
  match store !! a with
  | Some c => RateLimit.totalHits c
  | None => 0
  end.

(** The window of [a], if the store holds one, stays open until [t]. *)
Definition window_until (a : string) (t : Z)
    (store : gmap string RateLimit.client) : Prop :=
  forall c, store !! a = Some c -> t <= RateLimit.resetTime c.

(** *** Sample inputs *)

Definition sample_body : value :=
  JObj [("prompt"%string, JStr (js "hi"));
        ("options"%string,
         JObj [("temperature"%string, JNum (decimal 9 (-1)));
               ("maxOutputTokens"%string, num 64)])].

Definition zero_options_body : value :=
  JObj [("prompt"%string, JStr (js "hi"));
        ("isJson"%string, JBool true);
        ("options"%string,
         JObj [("temperature"%string, num 0);
               ("maxOutputTokens"%string, num 0)])].

Definition sample_response : value := JObj [("text"%string, JStr (js "ok"))].

(** An upstream that fulfils every call with [r], and one that rejects
    every call with [e]. *)
Definition answers (r : value) : value -> settled := fun _ => Fulfilled r.
Definition fails (e : value) : value -> settled := fun _ => Rejected e.

Definition invalid_key_error : value :=
  JObj [("message"%string, JStr (js "[400] API key not valid. API_KEY_INVALID"))].

Definition not_found_error : value :=
  JObj [("message"%string, JStr (js "Not Found"));
        ("response"%string, JObj [("status"%string, num 404)])].


(** An error whose status [res.status] refuses. *)
Definition status_1000_error : value :=
  JObj [("message"%string, JStr (js "Service Unavailable"));
        ("response"%string, JObj [("status"%string, num 1000)])].

(** A limiter that holds, for the address of [client_request], a window
    that was full and ended at 900000. *)
Definition ended_window : gmap string RateLimit.client :=
  {[ "203.0.113.7"%string := {| RateLimit.totalHits := 100; RateLimit.resetTime := 900000 |} ]}.

Definition client_request (t : Z) : request :=
  {| arrival := t; ip := "203.0.113.7"; req_body := sample_body |}.

(** A run with one more event in front. *)
Definition after {A} (ev : event) (m : M A) : M A := (fst m, ev :: snd m).

(** The answer to a request without a prompt. *)
Definition missing_prompt : M unit :=
  (Normal tt,
   [Respond (num 400)
      (JObj [("error"%string, JStr (js "Missing prompt in request body."))])]).

Definition error_prefix : jsstring := js "Failed to call Gemini API: ".

(** A run that makes no upstream call. *)
Definition quiet {A} (m : M A) : Prop := upstream_calls (snd m) = [].

(** *** Further observations *)

(** The field [key] of the argument of each upstream call of a run. *)
Definition upstream_field (out : M unit) (key : string) : list value :=
  map (fun params => own params key) (upstream_calls (snd out)).

(** The names of the own properties of an object, in order. *)
Definition keys (v : value) : list string :=
  match v with
  | JObj props => map fst props
  | _ => []
  end.

(** What a run printed with [console.error], in order. *)
Fixpoint console_errors (t : list event) : list (list value) :=
  match t with
  | [] => []
  | ConsoleError args :: t' => args :: console_errors t'
  | _ :: t' => console_errors t'
  end.

(** A run that prints nothing. *)
Definition silent {A} (m : M A) : Prop := console_errors (snd m) = [].

(** The part of [s] before the first occurrence of [sep]; all of [s] when
    there is none. *)
Fixpoint before (sep s : jsstring) : jsstring :=
  match s with
  | [] => []
  | c :: s' => if prefixb sep s then [] else c :: before sep s'
  end.

(** A string of white space only. *)
Definition blank (s : jsstring) : bool := forallb is_white_space s.

(** Two values of an option that the merge [x || default] cannot tell
    apart: the same value, or two falsy ones. *)
Definition same_option (a b : value) : Prop :=
  a = b \/ (ToBoolean a = false /\ ToBoolean b = false).

(** The text of the [TypeError] a read of [text] on a missing response
    throws. *)
Definition no_response_message (r : value) : jsstring :=
  js "Cannot read properties of "
    ++ (match r with JNull => js "null" | _ => js "undefined" end)
    ++ js " (reading 'text')".

Definition verbose_body : value :=
  JObj [("prompt"%string, JStr (js "hi"));
        ("model"%string, JStr (js "gemini-2.5-pro"));
        ("isJson"%string, JBool true);
        ("safetySettings"%string, JArr []);
        ("options"%string,
         JObj [("temperature"%string, JNum (decimal 9 (-1)));
               ("topK"%string, num 40);
               ("safetySettings"%string, JArr [])])].

Definition quota_error : value :=
  JObj [("message"%string,
         JStr (js "  quota exceeded at GoogleGenAI.generateContent (index.js:10)"))].

Definition data_error (data : value) : value :=
  JObj [("message"%string, JStr (js "Bad Gateway"));
        ("response"%string, JObj [("status"%string, num 502); ("data"%string, data)])].

(** The join of an array's elements, for a conversion [f] of an element:
    the loop inside [ToString]. *)
Section Join.
Variable f : value -> completion jsstring.

Fixpoint join_with (l : list value) : completion jsstring :=
  match l with
  | [] => Normal []
  | x :: l' =>
      let head :=
        match x with
        | JUndefined | JNull => Normal []
        | _ => f x
        end in
      match head, l' with
      | Normal s, [] => Normal s
      | Normal s, _ :: _ =>
          match join_with l' with
          | Normal r => Normal (s ++ js "," ++ r)
          | other => other
          end
      | other, _ => other
      end
  end.

End Join.

(** ** The runtime: checks *)

Example literal_0_2 : decimal 2 (-1) = S754_finite false 7205759403792794 (-55).
Proof. reflexivity. Qed.

Example literal_0_7 : decimal 7 (-1) = S754_finite false 6305039478318694 (-53).
Proof. reflexivity. Qed.

Example literal_0_9 : decimal 9 (-1) = S754_finite false 8106479329266893 (-53).
Proof. reflexivity. Qed.

Example toString_500 : ToString (num 500) = Normal (js "500").
Proof. vm_compute. reflexivity. Qed.

Example toString_0_7 : ToString (JNum (decimal 7 (-1))) = Normal (js "0.7").
Proof. vm_compute. reflexivity. Qed.

Example toString_1e21 : ToString (JNum (decimal 1 21)) = Normal (js "1e+21").
Proof. vm_compute. reflexivity. Qed.

Example toString_small : ToString (JNum (decimal 15 (-8))) = Normal (js "1.5e-7").
Proof. vm_compute. reflexivity. Qed.

Example toString_array :
  ToString (JArr [num 1; JNull; JStr (js "a"); JArr [JBool true; JObj []]])
  = Normal (js "1,,a,true,[object Object]").
Proof. vm_compute. reflexivity. Qed.

Example falsy_values :
  map ToBoolean [JUndefined; JNull; JBool false; num 0; JNum (S754_zero true);
                 JNum S754_nan; JStr []]
  = [false; false; false; false; false; false; false].
Proof. reflexivity. Qed.

Example truthy_values :
  map ToBoolean [JBool true; num 2048; JNum (decimal 9 (-1)); JStr (js "0");
                 JArr []; JObj []]
  = [true; true; true; true; true; true].
Proof. reflexivity. Qed.

Example split_at_marker :
  String_split (js "fetch failed at GoogleGenAI.call at GoogleGenAI.run")
    (js "at GoogleGenAI")
  = [js "fetch failed "; js ".call "; js ".run"].
Proof. reflexivity. Qed.

Example split_trailing : String_split (js "a,b,") (js ",") = [js "a"; js "b"; []].
Proof. reflexivity. Qed.

Example trim_both_ends :
  String_trim ([32; 160; 9] ++ js "fetch failed" ++ [10; 8232; 32])%N = js "fetch failed".
Proof. reflexivity. Qed.

Example includes_on_array :
  call_includes "error.message.includes" (JArr [JStr (js "API_KEY_INVALID")])
    (js "API_KEY_INVALID") = Normal (JBool true).
Proof. reflexivity. Qed.

Example part_000_trims_the_message :
  Part000.handler
    (fails (JObj [("message"%string, JStr (js "  quota exceeded at GoogleGenAI.x"))]))
    sample_body
  = (Normal tt,
     [GenerateContent (Part000_params sample_body);
      ConsoleError [JStr (js "Gemini API Error:");
                    JStr (js "  quota exceeded at GoogleGenAI.x")];
      Respond (num 500)
        (JObj [("error"%string, JStr (js "Failed to call Gemini API: quota exceeded"));
               ("code"%string, num 500)])]).
Proof. reflexivity. Qed.

Example no_body_throws :
  fst (ServerJs.handler (answers sample_response) JUndefined)
  = Throw (TypeError
             (js "Cannot destructure property 'prompt' of 'req.body' as it is undefined.")).
Proof. reflexivity. Qed.

(** ** The runtime: laws *)

Section Laws.
Context {A B : Type}.

Lemma bind_normal (a : A) (t : list event) (k : A -> M B) :
  bind (Normal a, t) k = (fst (k a), t ++ snd (k a)).
Proof. unfold bind. destruct (k a); reflexivity. Qed.

Lemma bind_pure_normal (a : A) (k : A -> M B) :
  bind (pure (Normal a)) k = k a.
Proof. unfold pure. rewrite bind_normal. destruct (k a); reflexivity. Qed.

Lemma bind_pure_throw (e : value) (k : A -> M B) :
  bind (pure (Throw e)) k = (Throw e, []).
Proof. reflexivity. Qed.

Lemma bind_ret (a : A) (k : A -> M B) : bind (ret a) k = k a.
Proof. apply bind_pure_normal. Qed.

End Laws.

Lemma bind_throw {A B} (e : value) (t : list event) (k : A -> M B) :
  bind (Throw e, t) k = (Throw e, t).
Proof. reflexivity. Qed.

Lemma bind_emit {B} (ev : event) (k : unit -> M B) :
  bind (emit ev) k = after ev (k tt).
Proof. unfold emit, after. rewrite bind_normal. reflexivity. Qed.

Lemma try_catch_throw {A} (e : value) (t : list event) (h : value -> M A) :
  try_catch (Throw e, t) h = (fst (h e), t ++ snd (h e)).
Proof. unfold try_catch. destruct (h e); reflexivity. Qed.

Lemma after_pair {A} (ev : event) (m : M A) c t :
  m = (c, t) -> after ev m = (c, ev :: t).
Proof. intros ->. reflexivity. Qed.

Lemma Get_own v k : nullish v = false -> Get v k = Normal (own v k).
Proof. destruct v; simpl; congruence. Qed.

Lemma GetOptional_own v k : GetOptional v k = Normal (own v k).
Proof. destruct v; reflexivity. Qed.

Lemma truthy_not_nullish v k : ToBoolean (own v k) = true -> nullish v = false.
Proof. destruct v; simpl; congruence. Qed.

Lemma truthy_value_not_nullish v : ToBoolean v = true -> nullish v = false.
Proof. destruct v; simpl; congruence. Qed.

Lemma own_string_not_nullish v k s : own v k = JStr s -> nullish v = false.
Proof. destruct v; simpl; congruence. Qed.

Lemma destructure_ok v s f : nullish v = false -> destructure v s f = Normal tt.
Proof. destruct v; simpl; congruence. Qed.

Lemma Get_normal_not_nullish v k x : Get v k = Normal x -> nullish v = false /\ x = own v k.
Proof. destruct v; simpl; intros H; inversion H; auto. Qed.

(** One step of a run: a read that succeeds, a returned value, a branch
    whose test is known. *)
Ltac js_step :=
  first
    [ rewrite bind_pure_normal
    | rewrite bind_ret
    | rewrite Get_own by assumption
    | match goal with
      | H : ToBoolean ?v = _ |- context [ToBoolean ?v] => rewrite H
      | H : own ?v ?k = JStr _ |- context [own ?v ?k] => rewrite H
      end
    | progress cbn [ToString] ].

(** *** Runs that make no upstream call *)

Lemma upstream_calls_app t1 t2 :
  upstream_calls (t1 ++ t2) = upstream_calls t1 ++ upstream_calls t2.
Proof.
  induction t1 as [|ev t1 IH]; [reflexivity|].
  destruct ev; simpl; rewrite IH; reflexivity.
Qed.

Lemma responses_app t1 t2 : responses (t1 ++ t2) = responses t1 ++ responses t2.
Proof.
  induction t1 as [|ev t1 IH]; [reflexivity|].
  destruct ev; simpl; rewrite IH; reflexivity.
Qed.

Lemma quiet_pure {A} (c : completion A) : quiet (pure c).
Proof. reflexivity. Qed.

Lemma quiet_ret {A} (a : A) : quiet (ret a).
Proof. reflexivity. Qed.

Lemma quiet_console_error args : quiet (console_error args).
Proof. reflexivity. Qed.

Lemma quiet_json_with_status code body : quiet (json_with_status code body).
Proof. reflexivity. Qed.

Lemma quiet_bind {A B} (m : M A) (k : A -> M B) :
  quiet m -> (forall a, quiet (k a)) -> quiet (bind m k).
Proof.
  unfold quiet. intros Hm Hk. destruct m as [[a|e|n] t]; simpl in *; auto.
  specialize (Hk a). destruct (k a) as [c t2]. simpl in *.
  rewrite upstream_calls_app, Hm, Hk. reflexivity.
Qed.

Lemma quiet_if {A} (b : bool) (m1 m2 : M A) :
  quiet m1 -> quiet m2 -> quiet (if b then m1 else m2).
Proof. destruct b; auto. Qed.

Ltac quiet_run :=
  repeat first
    [ apply quiet_pure | apply quiet_ret | apply quiet_console_error
    | apply quiet_json_with_status
    | apply quiet_if
    | apply quiet_bind; [|intros ?] ].

Lemma ServerJs_on_error_quiet e : quiet (ServerJs.on_error e).
Proof. unfold ServerJs.on_error. quiet_run. Qed.

Lemma Part000_on_error_quiet e : quiet (Part000.on_error e).
Proof. unfold Part000.on_error. quiet_run. Qed.

(** ** The handlers, case by case *)

Lemma ServerJs_handler_falsy ai body :
  nullish body = false -> ToBoolean (own body "prompt") = false ->
  ServerJs.handler ai body = missing_prompt.
Proof.
  intros Hn Hp. unfold ServerJs.handler.
  rewrite (destructure_ok _ _ _ Hn), !(Get_own _ _ Hn), !bind_pure_normal, Hp.
  reflexivity.
Qed.

Lemma Part000_handler_falsy ai body :
  nullish body = false -> ToBoolean (own body "prompt") = false ->
  Part000.handler ai body = missing_prompt.
Proof.
  intros Hn Hp. unfold Part000.handler.
  rewrite (destructure_ok _ _ _ Hn), !(Get_own _ _ Hn), !bind_pure_normal, Hp.
  reflexivity.
Qed.

(** With a prompt, the handler makes its one upstream call and then either
    relays the text or runs its [catch] block. *)
Lemma ServerJs_handler_run ai body :
  ToBoolean (own body "prompt") = true ->
  ServerJs.handler ai body =
  match ai (ServerJs_params body) with
  | Fulfilled r =>
      match Get r "text" with
      | Normal text =>
          (Normal tt, [GenerateContent (ServerJs_params body);
                       Respond (num 200) (JObj [("text"%string, text)])])
      | Throw e => after (GenerateContent (ServerJs_params body)) (ServerJs.on_error e)
      | Exit n => (Exit n, [GenerateContent (ServerJs_params body)])
      end
  | Rejected e => after (GenerateContent (ServerJs_params body)) (ServerJs.on_error e)
  end.
Proof.
  intros Hp. pose proof (truthy_not_nullish _ _ Hp) as Hn.
  unfold ServerJs.handler.
  rewrite (destructure_ok _ _ _ Hn), !(Get_own _ _ Hn), !bind_pure_normal, Hp.
  cbn [negb]. fold (default_temperature (own body "isJson")).
  fold (contents_of (own body "prompt")). fold (ServerJs_params body).
  unfold await_generateContent, after.
  destruct (ai (ServerJs_params body)) as [r|e].
  - rewrite bind_normal. destruct (Get r "text") as [text|e|n].
    + rewrite bind_pure_normal. reflexivity.
    + rewrite bind_pure_throw. cbn [fst snd app]. rewrite try_catch_throw. reflexivity.
    + reflexivity.
  - rewrite bind_throw, try_catch_throw. reflexivity.
Qed.

Lemma Part000_handler_run ai body :
  ToBoolean (own body "prompt") = true ->
  Part000.handler ai body =
  match ai (Part000_params body) with
  | Fulfilled r =>
      match Get r "text" with
      | Normal text =>
          (Normal tt, [GenerateContent (Part000_params body);
                       Respond (num 200) (JObj [("text"%string, text)])])
      | Throw e => after (GenerateContent (Part000_params body)) (Part000.on_error e)
      | Exit n => (Exit n, [GenerateContent (Part000_params body)])
      end
  | Rejected e => after (GenerateContent (Part000_params body)) (Part000.on_error e)
  end.
Proof.
  intros Hp. pose proof (truthy_not_nullish _ _ Hp) as Hn.
  unfold Part000.handler.
  rewrite (destructure_ok _ _ _ Hn), !(Get_own _ _ Hn), !bind_pure_normal, Hp.
  cbn [negb]. rewrite !GetOptional_own, !bind_pure_normal.
  cbn [app]. fold (default_temperature (own body "isJson")).
  fold (contents_of (own body "prompt")). fold (Part000_params body).
  unfold await_generateContent, after.
  destruct (ai (Part000_params body)) as [r|e].
  - rewrite bind_normal. destruct (Get r "text") as [text|e|n].
    + rewrite bind_pure_normal. reflexivity.
    + rewrite bind_pure_throw. cbn [fst snd app]. rewrite try_catch_throw. reflexivity.
    + reflexivity.
  - rewrite bind_throw, try_catch_throw. reflexivity.
Qed.

(** Whatever the upstream does, the handler calls it exactly once. *)
Lemma ServerJs_upstream_calls ai body :
  ToBoolean (own body "prompt") = true ->
  upstream_calls (snd (ServerJs.handler ai body)) = [ServerJs_params body].
Proof.
  intros Hp. rewrite (ServerJs_handler_run _ _ Hp).
  destruct (ai (ServerJs_params body)) as [r|e]; [destruct (Get r "text")|];
    simpl; try rewrite ServerJs_on_error_quiet; reflexivity.
Qed.

Lemma Part000_upstream_calls ai body :
  ToBoolean (own body "prompt") = true ->
  upstream_calls (snd (Part000.handler ai body)) = [Part000_params body].
Proof.
  intros Hp. rewrite (Part000_handler_run _ _ Hp).
  destruct (ai (Part000_params body)) as [r|e]; [destruct (Get r "text")|];
    simpl; try rewrite Part000_on_error_quiet; reflexivity.
Qed.

(** *** The [catch] blocks *)

Lemma split_go_cons sep s acc skip :
  exists x l, split_go sep s acc skip = x :: l.
Proof.
  revert acc skip. induction s as [|c s IH]; intros acc skip; simpl.
  - eauto.
  - destruct skip; [|apply IH].
    destruct (prefixb sep (c :: s)); [eauto | apply IH].
Qed.

Lemma split_literal_cons m c sep :
  exists x l, String_split m (c :: sep) = x :: l.
Proof. apply split_go_cons. Qed.

Lemma Part000_on_error_string e m :
  nullish e = false -> own e "message" = JStr m ->
  Part000.on_error e =
  (Normal tt,
   [ConsoleError [JStr (js "Gemini API Error:"); JStr m];
    Respond (num 500)
      (JObj [("error"%string, JStr (error_prefix ++ apiErrorMessage m));
             ("code"%string, num 500)])]).
Proof.
  intros Hn Hm. unfold Part000.on_error.
  rewrite !(Get_own _ _ Hn), Hm, !bind_pure_normal.
  unfold console_error. rewrite bind_emit. apply after_pair.
  cbn [call_includes]. rewrite bind_pure_normal. cbn [ToBoolean].
  unfold apiErrorMessage.
  destruct (String_includes m (js "API_KEY_INVALID")).
  - rewrite bind_ret. cbn [ToString]. rewrite bind_pure_normal. reflexivity.
  - cbn [call_split]. rewrite bind_pure_normal.
    destruct (split_literal_cons m 97%N (js "t GoogleGenAI")) as (x & l & Hs).
    change (97%N :: js "t GoogleGenAI") with (js "at GoogleGenAI") in Hs.
    rewrite Hs. cbn [map index0 hd]. rewrite bind_pure_normal.
    cbn [call_trim]. rewrite bind_pure_normal, bind_ret.
    destruct (String_trim x) as [|c t]; cbn [js_or ToBoolean ToString];
      rewrite bind_pure_normal; reflexivity.
Qed.

Lemma Part000_on_error_cases e :
  if part_000_readable e then answered_once (Part000.on_error e)
  else threw_unanswered (Part000.on_error e).
Proof.
  destruct (nullish e) eqn:Hn.
  { destruct e; try discriminate; (split; [eexists|]; reflexivity). }
  unfold part_000_readable.
  destruct (own e "message") as [| |b|x|m|elems|props] eqn:Hm.
  6: { (* an array *)
    unfold Part000.on_error.
    rewrite !(Get_own _ _ Hn), Hm, !bind_pure_normal.
    unfold console_error. rewrite bind_emit. cbn [call_includes].
    rewrite bind_pure_normal. cbn [ToBoolean].
    destruct (existsb _ elems).
    - rewrite bind_ret. cbn [ToString]. rewrite bind_pure_normal.
      split; [reflexivity | eexists _, _; reflexivity].
    - cbn [call_split]. split; [eexists|]; reflexivity. }
  5: { rewrite (Part000_on_error_string _ _ Hn Hm).
       split; [reflexivity | eexists _, _; reflexivity]. }
  all: unfold Part000.on_error;
    rewrite !(Get_own _ _ Hn), Hm, !bind_pure_normal;
    unfold console_error; rewrite bind_emit;
    (split; [eexists|]; reflexivity).
Qed.

(** A conversion to a string ends with the string or with the [TypeError]
    of an object that has no conversion. *)
Lemma ToString_array elems : ToString (JArr elems) = join_with ToString elems.
Proof. reflexivity. Qed.

Lemma join_with_result f elems :
  Forall (fun x => match f x with
                   | Normal _ => True
                   | Throw y => y = TypeError (js "Cannot convert object to primitive value")
                   | Exit _ => False
                   end) elems ->
  match join_with f elems with
  | Normal _ => True
  | Throw y => y = TypeError (js "Cannot convert object to primitive value")
  | Exit _ => False
  end.
Proof.
  induction 1 as [|x l Hx Hl IH]; [exact I|].
  assert (match
            match x with
            | JUndefined | JNull => Normal []
            | _ => f x
            end
          with
          | Normal _ => True
          | Throw y => y = TypeError (js "Cannot convert object to primitive value")
          | Exit _ => False
          end) as Hh by (destruct x; try exact I; exact Hx).
  cbn [join_with].
  destruct (match x with JUndefined | JNull => Normal [] | _ => f x end)
    as [s|y|n]; [|exact Hh|exact Hh].
  destruct l as [|x' l']; [exact I|].
  destruct (join_with f (x' :: l')) as [r|y|n]; [exact I | exact IH | exact IH].
Qed.

Lemma ToString_result v :
  match ToString v with
  | Normal _ => True
  | Throw x => x = TypeError (js "Cannot convert object to primitive value")
  | Exit _ => False
  end.
Proof.
  revert v. fix IH 1. intros v. destruct v as [| |b|x|s|elems|props].
  1-5: try destruct b; exact I.
  - rewrite ToString_array. apply join_with_result.
    induction elems as [|x l IHl]; constructor; [apply IH | exact IHl].
  - cbn [ToString]. destruct (lookup_prop "toString" props); [reflexivity | exact I].
Qed.

(** What [res.status] does with a code. *)
Lemma res_status_valid code :
  valid_status code = true -> res_status code = Normal tt.
Proof.
  unfold valid_status. destruct (res_status code) as [[]|x|n]; try discriminate.
  reflexivity.
Qed.

Lemma res_status_invalid code :
  valid_status code = false ->
  exists message,
    res_status code = Throw (TypeError message) \/
    res_status code = Throw (RangeError message).
Proof.
  unfold valid_status, res_status.
  destruct code as [| |b|x|s|elems|props]; try (intros _; eexists; left; reflexivity).
  destruct (integer_value x) as [z|]; [|intros _; eexists; left; reflexivity].
  destruct ((z <? 100) || (999 <? z)); [|discriminate].
  intros _. eexists. right. reflexivity.
Qed.

Lemma valid_status_number code :
  valid_status code = true -> exists x, code = JNum x.
Proof. unfold valid_status, res_status. destruct code; try discriminate. eauto. Qed.

(** The [catch] block of [server.js], once the error is known to be a
    value with properties: it prints, reads the message to relay, sets the
    recovered status, converts the message and answers. *)
Lemma ServerJs_on_error_run e :
  nullish e = false ->
  ServerJs.on_error e =
  after (ConsoleError [JStr (js "Gemini API Error:"); own e "message"])
    (bind (pure (if ToBoolean (js_and (own e "response") (own (own e "response") "data"))
                 then Get (own (own (own e "response") "data") "error") "message"
                 else Normal (JStr (js "Internal Server Error"))))
       (fun errorMessage =>
          bind (pure (res_status (recovered_status e)))
            (fun _ =>
               bind (pure (ToString errorMessage))
                 (fun text =>
                    json_with_status (recovered_status e)
                      (JObj [("error"%string,
                              JStr (js "Failed to call Gemini API: " ++ text));
                             ("message"%string, errorMessage);
                             ("code"%string, recovered_status e)]))))).
Proof.
  intros Hn. unfold ServerJs.on_error.
  rewrite (Get_own _ _ Hn), bind_pure_normal.
  unfold console_error. rewrite bind_emit. f_equal.
  rewrite (Get_own _ _ Hn), bind_pure_normal.
  unfold recovered_status, js_and.
  destruct (ToBoolean (own e "response")) eqn:Hr.
  - pose proof (truthy_value_not_nullish _ Hr) as Hrn.
    destruct (ToBoolean (own (own e "response") "status")) eqn:Hst;
      destruct (ToBoolean (own (own e "response") "data")) eqn:Hd;
      try pose proof (truthy_value_not_nullish _ Hd) as Hdn;
      repeat first [ rewrite bind_pure_normal | rewrite bind_ret
                   | rewrite Get_own by assumption
                   | rewrite Hr | rewrite Hst | rewrite Hd ];
      reflexivity.
  - repeat first [ rewrite bind_pure_normal | rewrite bind_ret
                 | rewrite Get_own by assumption | rewrite Hr ].
    reflexivity.
Qed.

(** The [catch] block of [server.js] answers a readable error, with the
    recovered status and the relayed message, and throws on any other
    before it has answered. *)
Lemma ServerJs_on_error_cases e :
  if server_js_readable e
  then exists text,
         ToString (relayed_message e) = Normal text /\
         ServerJs.on_error e =
         (Normal tt,
          [ConsoleError [JStr (js "Gemini API Error:"); own e "message"];
           Respond (fst (server_js_answer e text)) (snd (server_js_answer e text))])
  else threw_error_unanswered (ServerJs.on_error e).
Proof.
  destruct (nullish e) eqn:Hn.
  { destruct e; try discriminate; (split; [eexists; left|]; reflexivity). }
  rewrite (ServerJs_on_error_run _ Hn).
  unfold server_js_readable, server_js_answer. rewrite Hn. cbn [negb andb fst snd].
  match goal with
  | |- context [bind _ ?k] => set (finish := k)
  end.
  assert (forall errorMessage : value,
            if match ToString errorMessage with
               | Normal _ => true
               | _ => false
               end && valid_status (recovered_status e)
            then exists text,
                   ToString errorMessage = Normal text /\
                   after (ConsoleError [JStr (js "Gemini API Error:"); own e "message"])
                     (finish errorMessage) =
                   (Normal tt,
                    [ConsoleError [JStr (js "Gemini API Error:"); own e "message"];
                     Respond (recovered_status e)
                       (JObj [("error"%string,
                               JStr (js "Failed to call Gemini API: " ++ text));
                              ("message"%string, errorMessage);
                              ("code"%string, recovered_status e)])])
            else threw_error_unanswered
                   (after (ConsoleError [JStr (js "Gemini API Error:"); own e "message"])
                      (finish errorMessage))) as Hrest.
  { intros errorMessage. unfold finish.
    destruct (valid_status (recovered_status e)) eqn:Hv.
    - rewrite (res_status_valid _ Hv), bind_pure_normal.
      pose proof (ToString_result errorMessage) as Hres.
      destruct (ToString errorMessage) as [text|x|n]; [| |contradiction].
      + rewrite bind_pure_normal. exists text. split; reflexivity.
      + subst x. split; [eexists; left|]; reflexivity.
    - rewrite andb_false_r.
      destruct (res_status_invalid _ Hv) as [m [H|H]]; rewrite H;
        (split; [exists m|]); auto. }
  clearbody finish. unfold relayed_message.
  destruct (ToBoolean (js_and (own e "response") (own (own e "response") "data"))).
  - destruct (nullish (own (own (own e "response") "data") "error")) eqn:Hen.
    + destruct (own (own (own e "response") "data") "error"); try discriminate;
        (split; [eexists; left|]; reflexivity).
    + rewrite (Get_own _ _ Hen), bind_pure_normal. cbn [negb andb]. apply Hrest.
  - rewrite bind_pure_normal. cbn [negb andb]. apply Hrest.
Qed.

(** What the [catch] block of [part_000] answers to an error it can read. *)
Lemma Part000_on_error_readable e :
  part_000_readable e = true ->
  exists text,
    Part000.on_error e =
    (Normal tt,
     [ConsoleError [JStr (js "Gemini API Error:"); own e "message"];
      Respond (num 500)
        (JObj [("error"%string, JStr (error_prefix ++ text));
               ("code"%string, num 500)])]).
Proof.
  unfold part_000_readable. intros H.
  assert (nullish e = false) as Hn by (destruct e; simpl in *; congruence).
  destruct (own e "message") as [| |b|x|m|elems|props] eqn:Hm; try discriminate.
  - rewrite (Part000_on_error_string _ _ Hn Hm). eexists. reflexivity.
  - unfold Part000.on_error.
    rewrite !(Get_own _ _ Hn), Hm, !bind_pure_normal.
    unfold console_error. rewrite bind_emit. cbn [call_includes].
    rewrite bind_pure_normal. cbn [ToBoolean]. rewrite H.
    rewrite bind_ret. cbn [ToString]. rewrite bind_pure_normal.
    eexists. reflexivity.
Qed.

Lemma server_js_responses_le e :
  (length (responses (snd (ServerJs.on_error e))) <= 1)%nat.
Proof.
  pose proof (ServerJs_on_error_cases e) as H.
  destruct (server_js_readable e).
  - destruct H as (text & _ & ->). simpl. lia.
  - destruct H as [_ ->]. simpl. lia.
Qed.

Lemma on_error_responses_le (out : M unit) (readable : bool) :
  (if readable then answered_once out else threw_unanswered out) ->
  (length (responses (snd out)) <= 1)%nat.
Proof.
  destruct readable; [intros [_ (s & b & ->)] | intros [_ ->]]; simpl; lia.
Qed.

(** A read that throws, throws a [TypeError]. *)
Lemma Get_throw_TypeError v k e :
  Get v k = Throw e -> exists m, e = TypeError m.
Proof. destruct v; simpl; intros H; inversion H; eauto. Qed.

(** *** Substrings *)

Lemma prefixb_spec p s : prefixb p s = true <-> exists post, s = p ++ post.
Proof.
  revert s. induction p as [|a p IH]; intros s; simpl.
  - split; eauto.
  - destruct s as [|b s].
    + split; [discriminate | intros [post H]; discriminate].
    + rewrite andb_true_iff, N.eqb_eq, IH. split.
      * intros [-> [post ->]]. eauto.
      * intros [post H]. injection H as -> ->. eauto.
Qed.

Lemma String_includes_spec s p :
  String_includes s p = true <-> exists pre post, s = pre ++ p ++ post.
Proof.
  induction s as [|c s IH]; simpl.
  - rewrite orb_false_r, prefixb_spec. split.
    + intros [post H]. exists [], post. exact H.
    + intros (pre & post & H). destruct pre; [|discriminate]. eauto.
  - rewrite orb_true_iff, prefixb_spec, IH. split.
    + intros [[post H] | (pre & post & ->)].
      * exists [], post. exact H.
      * exists (c :: pre), post. reflexivity.
    + intros (pre & post & H). destruct pre as [|c' pre].
      * left. eauto.
      * right. injection H as -> ->. eauto.
Qed.




Lemma rejected_with_ServerJs ai body e :
  ToBoolean (own body "prompt") = true ->
  rejected_with ai (ServerJs.handler ai body) e ->
  ServerJs.handler ai body =
  after (GenerateContent (ServerJs_params body)) (ServerJs.on_error e).
Proof.
  intros Hp H. rewrite (ServerJs_handler_run _ _ Hp).
  rewrite (H (ServerJs_params body)); [reflexivity|].
  rewrite (ServerJs_upstream_calls _ _ Hp). left. reflexivity.
Qed.

Lemma rejected_with_Part000 ai body e :
  ToBoolean (own body "prompt") = true ->
  rejected_with ai (Part000.handler ai body) e ->
  Part000.handler ai body =
  after (GenerateContent (Part000_params body)) (Part000.on_error e).
Proof.
  intros Hp H. rewrite (Part000_handler_run _ _ Hp).
  rewrite (H (Part000_params body)); [reflexivity|].
  rewrite (Part000_upstream_calls _ _ Hp). left. reflexivity.
Qed.

(** *** Exactly one response *)

Lemma Get_not_Exit v k n : Get v k <> Exit n.
Proof. destruct v; simpl; discriminate. Qed.

Lemma one_response_result p s :
  one_response
    (Normal tt, [GenerateContent p; Respond (num 200) (JObj [("text"%string, JStr s)])]).
Proof. split; [reflexivity|]. eexists _, _. split; reflexivity. Qed.

Lemma one_response_Part000_on_error p e :
  part_000_readable e = true ->
  one_response (after (GenerateContent p) (Part000.on_error e)).
Proof.
  intros H. destruct (Part000_on_error_readable _ H) as [text ->].
  split; [reflexivity|]. eexists _, _. split; reflexivity.
Qed.

Lemma one_response_ServerJs_on_error p e :
  server_js_readable e = true ->
  one_response (after (GenerateContent p) (ServerJs.on_error e)).
Proof.
  intros H. pose proof (ServerJs_on_error_cases e) as Hc. rewrite H in Hc.
  destruct Hc as (text & _ & ->).
  assert (valid_status (recovered_status e) = true) as Hv.
  { unfold server_js_readable in H. apply andb_prop in H as [_ Hv]. exact Hv. }
  destruct (valid_status_number _ Hv) as [x Hx].
  split; [reflexivity|]. eexists _, _. split; [reflexivity|].
  unfold server_js_answer. cbn [snd]. rewrite Hx. reflexivity.
Qed.

(** A [TypeError] has a string message and no [response]: both [catch]
    blocks answer one. *)
Lemma TypeError_readable m :
  part_000_readable (TypeError m) = true /\ server_js_readable (TypeError m) = true.
Proof. split; reflexivity. Qed.

(** ** The rate limiter: counting *)

Lemma ServerJs_serve_with ai rs store :
  ServerJs.serve ai rs store = serve_with ServerJs.apiLimiter (ServerJs.handler ai) rs store.
Proof.
  revert store. induction rs as [|r rs IH]; intros store; [reflexivity|].
  simpl. unfold ServerJs.api_gemini, route.
  destruct (RateLimit.middleware _ _ _ _) as [store1 [[status b]|]]; rewrite IH; reflexivity.
Qed.

Lemma Part000_serve_with ai rs store :
  Part000.serve ai rs store = serve_with Part000.apiLimiter (Part000.handler ai) rs store.
Proof.
  revert store. induction rs as [|r rs IH]; intros store; [reflexivity|].
  simpl. unfold Part000.api_gemini, route.
  destruct (RateLimit.middleware _ _ _ _) as [store1 [[status b]|]]; rewrite IH; reflexivity.
Qed.

Section Limiter.
Variable o : RateLimit.options.
Variable handler : value -> M unit.
Variable a : string.
Variable t0 : Z.

Let W := RateLimit.windowMs o.

Lemma middleware_counts now store :
  t0 <= now < t0 + W -> window_until a (t0 + W) store ->
  let '(store', res) := RateLimit.middleware o now a store in
  window_until a (t0 + W) store' /\
  hits a store' = hits a store + 1 /\
  res = if RateLimit.max o <? hits a store + 1
        then Some (num 429, RateLimit.message o) else None.
Proof.
  intros Hnow Hw. unfold RateLimit.middleware, RateLimit.increment, hits, window_until in *.
  destruct (store !! a) as [c|] eqn:Hc.
  - specialize (Hw c eq_refl).
    destruct (RateLimit.resetTime c <=? now) eqn:Hr; [apply Z.leb_le in Hr; lia|].
    cbn [RateLimit.totalHits RateLimit.resetTime].
    destruct (RateLimit.max o <? RateLimit.totalHits c + 1);
      (split; [|split]); try reflexivity;
      try (rewrite lookup_insert_eq; reflexivity);
      intros c'; rewrite lookup_insert_eq; intros H; injection H as <-; simpl; lia.
  - cbn [RateLimit.totalHits RateLimit.resetTime].
    destruct (RateLimit.max o <? 0 + 1);
      (split; [|split]); try reflexivity;
      try (rewrite lookup_insert_eq; reflexivity);
      intros c'; rewrite lookup_insert_eq; intros H; injection H as <-; simpl; fold W; lia.
Qed.

Lemma middleware_other now b store :
  b <> a -> fst (RateLimit.middleware o now b store) !! a = store !! a.
Proof.
  intros Hb. unfold RateLimit.middleware, RateLimit.increment.
  match goal with |- context [if ?c then _ else _] => destruct c end;
    simpl; apply lookup_insert_ne; exact Hb.
Qed.

Lemma route_store r store :
  fst (route o handler r store) = fst (RateLimit.middleware o (arrival r) (ip r) store).
Proof.
  unfold route. destruct (RateLimit.middleware _ _ _ _) as [s [[? ?]|]]; reflexivity.
Qed.

Lemma serve_with_counts rs store :
  (forall q, In q rs -> ip q = a -> t0 <= arrival q < t0 + W) ->
  window_until a (t0 + W) store ->
  window_until a (t0 + W) (fst (serve_with o handler rs store)) /\
  hits a (fst (serve_with o handler rs store))
    = hits a store + Z.of_nat (length (from_ip a rs)).
Proof.
  revert store. induction rs as [|r rs IH]; intros store Hin Hw.
  - simpl. split; [exact Hw | lia].
  - simpl. destruct (route o handler r store) as [store1 out] eqn:Hroute.
    assert (fst (route o handler r store) = store1) as Hst by (rewrite Hroute; reflexivity).
    rewrite route_store in Hst.
    assert (window_until a (t0 + W) store1 /\
            hits a store1 = hits a store + Z.of_nat (length (from_ip a [r]))) as [Hw1 Hh1].
    { unfold from_ip. rewrite filter_cons. destruct (decide (ip r = a)) as [Hr|Hr].
      - pose proof (middleware_counts (arrival r) store
                      (Hin r (or_introl eq_refl) Hr) Hw) as Hm.
        rewrite Hr in Hst.
        destruct (RateLimit.middleware o (arrival r) a store) as [s res].
        simpl in Hst. subst s. destruct Hm as (? & ? & ?). split; [assumption|].
        simpl. lia.
      - subst store1. unfold window_until, hits.
        rewrite (middleware_other _ _ _ Hr). split; [exact Hw | simpl; lia]. }
    specialize (IH store1 (fun q Hq => Hin q (or_intror Hq)) Hw1).
    destruct (serve_with o handler rs store1) as [store2 outs]. simpl in *.
    destruct IH as [IHw IHh]. split; [exact IHw|].
    rewrite IHh, Hh1. unfold from_ip. rewrite !filter_cons.
    destruct (decide (ip r = a)); simpl; lia.
Qed.

Lemma route_counts r store :
  ip r = a -> t0 <= arrival r < t0 + W -> window_until a (t0 + W) store ->
  window_until a (t0 + W) (fst (route o handler r store)) /\
  hits a (fst (route o handler r store)) = hits a store + 1 /\
  snd (route o handler r store)
    = if RateLimit.max o <? hits a store + 1
      then res_status_json (num 429) (RateLimit.message o)
      else handler (req_body r).
Proof.
  intros Hr Hnow Hw. pose proof (middleware_counts (arrival r) store Hnow Hw) as Hm.
  unfold route. rewrite Hr.
  destruct (RateLimit.middleware o (arrival r) a store) as [s res].
  destruct Hm as (H1 & H2 & ->).
  destruct (RateLimit.max o <? hits a store + 1); simpl; auto.
Qed.

Lemma route_other r store :
  ip r <> a ->
  window_until a (t0 + W) store ->
  window_until a (t0 + W) (fst (route o handler r store)) /\
  hits a (fst (route o handler r store)) = hits a store.
Proof.
  intros Hr Hw. rewrite route_store. unfold window_until, hits.
  rewrite (middleware_other _ _ _ Hr). auto.
Qed.

Lemma serve_with_passes rs store :
  (forall q, In q rs -> ip q = a -> t0 <= arrival q < t0 + W) ->
  window_until a (t0 + W) store ->
  hits a store + Z.of_nat (length (from_ip a rs)) <= RateLimit.max o ->
  forall i q, rs !! i = Some q -> ip q = a ->
    snd (serve_with o handler rs store) !! i = Some (handler (req_body q)).
Proof.
  revert store. induction rs as [|r rs IH]; intros store Hin Hw Hmax i q Hi Hq.
  - destruct i; discriminate.
  - simpl. destruct (route o handler r store) as [store1 out] eqn:Hroute.
    destruct (serve_with o handler rs store1) as [store2 outs] eqn:Hserve.
    unfold from_ip in Hmax. rewrite filter_cons in Hmax.
    destruct i as [|i]; simpl in Hi |- *.
    + injection Hi as ->.
      destruct (route_counts q store Hq (Hin q (or_introl eq_refl) Hq) Hw) as (_ & _ & Hout).
      rewrite Hroute in Hout. simpl in Hout. rewrite Hout.
      destruct (decide (ip q = a)); [|contradiction].
      simpl in Hmax.
      destruct (RateLimit.max o <? hits a store + 1) eqn:Hlt; [|reflexivity].
      apply Z.ltb_lt in Hlt. lia.
    + assert (window_until a (t0 + W) store1 /\
              hits a store1 + Z.of_nat (length (from_ip a rs)) <= RateLimit.max o)
        as [Hw1 Hmax1].
      { destruct (decide (ip r = a)) as [Hr|Hr].
        - destruct (route_counts r store Hr (Hin r (or_introl eq_refl) Hr) Hw)
            as (H1 & H2 & _).
          rewrite Hroute in H1, H2. simpl in *. split; [exact H1|].
          unfold from_ip. lia.
        - destruct (route_other r store Hr Hw) as (H1 & H2).
          rewrite Hroute in H1, H2. simpl in *. split; [exact H1|].
          unfold from_ip. lia. }
      specialize (IH store1 (fun q' Hq' => Hin q' (or_intror Hq')) Hw1 Hmax1 i q Hi Hq).
      rewrite Hserve in IH. exact IH.
Qed.

(** A request of [a] that finds no window of [a] open opens one, and is
    the first it counts. *)
Lemma route_opens r store :
  ip r = a -> arrival r = t0 ->
  (forall c, store !! a = Some c -> RateLimit.resetTime c <= t0) ->
  window_until a (t0 + W) (fst (route o handler r store)) /\
  hits a (fst (route o handler r store)) = 1 /\
  snd (route o handler r store)
    = if RateLimit.max o <? 1
      then res_status_json (num 429) (RateLimit.message o)
      else handler (req_body r).
Proof.
  intros Hr Ht Hold.
  unfold route, RateLimit.middleware, RateLimit.increment, hits, window_until.
  rewrite Hr, Ht.
  assert (match store !! a with
          | Some c =>
              if RateLimit.resetTime c <=? t0
              then {| RateLimit.totalHits := 0; RateLimit.resetTime := t0 + RateLimit.windowMs o |}
              else c
          | None => {| RateLimit.totalHits := 0; RateLimit.resetTime := t0 + RateLimit.windowMs o |}
          end = {| RateLimit.totalHits := 0; RateLimit.resetTime := t0 + RateLimit.windowMs o |})
    as ->.
  { destruct (store !! a) as [c|]; [|reflexivity].
    specialize (Hold c eq_refl). apply Z.leb_le in Hold. rewrite Hold. reflexivity. }
  cbn [RateLimit.totalHits RateLimit.resetTime]. change (0 + 1) with 1.
  destruct (RateLimit.max o <? 1); cbn [fst snd];
    rewrite lookup_insert_eq; (split; [|split]); try reflexivity;
    intros c H; injection H as <-; simpl; fold W; lia.
Qed.

(** The window that a request [first] of [a] opens: when it and the
    requests of [a] after it make up the quota, each of them is passed to
    the handler, and the next request of [a] in the window is turned
    away. *)
Lemma window_quota first rs r store :
  ip first = a -> arrival first = t0 -> ip r = a ->
  (forall c, store !! a = Some c -> RateLimit.resetTime c <= t0) ->
  (forall q, In q (rs ++ [r]) -> ip q = a -> t0 <= arrival q < t0 + W) ->
  1 + Z.of_nat (length (from_ip a rs)) = RateLimit.max o ->
  (forall i q, (first :: rs) !! i = Some q -> ip q = a ->
     snd (serve_with o handler (first :: rs) store) !! i = Some (handler (req_body q))) /\
  snd (route o handler r (fst (serve_with o handler (first :: rs) store)))
    = res_status_json (num 429) (RateLimit.message o).
Proof.
  intros Hf Ht Hr Hold Hin Hmax.
  destruct (route_opens first store Hf Ht Hold) as (Hw1 & Hh1 & Hout1).
  cbn [serve_with].
  destruct (route o handler first store) as [store1 out1] eqn:Hroute.
  cbn [fst snd] in Hw1, Hh1, Hout1.
  assert (forall q, In q rs -> ip q = a -> t0 <= arrival q < t0 + W) as Hin'
    by (intros q Hq; apply Hin, in_or_app; left; exact Hq).
  pose proof (serve_with_passes rs store1 Hin' Hw1) as Hpass.
  destruct (serve_with_counts rs store1 Hin' Hw1) as [Hw2 Hh2].
  destruct (serve_with o handler rs store1) as [store2 outs] eqn:Hserve.
  cbn [fst snd] in *. split.
  - intros i q Hi Hq. destruct i as [|i]; simpl in Hi |- *.
    + injection Hi as <-. rewrite Hout1.
      destruct (RateLimit.max o <? 1) eqn:Hlt; [|reflexivity].
      apply Z.ltb_lt in Hlt. lia.
    + apply Hpass; [lia | exact Hi | exact Hq].
  - destruct (route_counts r store2 Hr
                (Hin r (in_or_app _ _ _ (or_intror (in_eq r []))) Hr) Hw2)
      as (_ & _ & ->).
    destruct (RateLimit.max o <? hits a store2 + 1) eqn:Hlt; [reflexivity|].
    apply Z.ltb_ge in Hlt. lia.
Qed.

End Limiter.

(** ** The claims *)




(** C2, as amended.  For a request with a truthy prompt, the temperature
    passed upstream by [part_000] is [options.temperature] when that is
    present and truthy, and otherwise 0.2 when [isJson] is truthy and 0.7
    when it is not; [server.js] does not read [options] and always passes
    that default. *)
Theorem temperature_passed_upstream (ai : value -> settled) (body : value) :
  ToBoolean (own body "prompt") = true ->
  let supplied := own (own body "options") "temperature" in
  let default :=
    if ToBoolean (own body "isJson") then JNum (decimal 2 (-1)) else JNum (decimal 7 (-1)) in
  upstream_config (Part000.handler ai body) "temperature"
    = [if ToBoolean supplied then supplied else default] /\
  upstream_config (ServerJs.handler ai body) "temperature" = [default].
Proof.
  intros Hp. unfold upstream_config.
  rewrite (Part000_upstream_calls _ _ Hp), (ServerJs_upstream_calls _ _ Hp).
  split; reflexivity.
Qed.

(** The theorem at a sample input. *)
Lemma temperature_passed_upstream_witness :
  upstream_config (Part000.handler (answers sample_response) sample_body) "temperature"
    = [JNum (decimal 9 (-1))] /\
  upstream_config (ServerJs.handler (answers sample_response) sample_body) "temperature"
    = [JNum (decimal 7 (-1))].
Proof.
  apply (temperature_passed_upstream (answers sample_response) sample_body).
  reflexivity.
Defined.

(** [server.js] passes 0.7 although the request supplies the temperature 0.9. *)
Lemma server_js_ignores_temperature :
  ToBoolean (own sample_body "prompt") = true /\
  own (own sample_body "options") "temperature" = JNum (decimal 9 (-1)) /\
  ToBoolean (JNum (decimal 9 (-1))) = true /\
  upstream_config (ServerJs.handler (answers sample_response) sample_body) "temperature"
    = [JNum (decimal 7 (-1))] /\
  JNum (decimal 7 (-1)) <> JNum (decimal 9 (-1)).
Proof. repeat split; try reflexivity. vm_compute. discriminate. Qed.

(** C3, as amended.  For a request with a truthy prompt the handler ends
    normally and sends exactly one response, a GenerationResult or a
    GenerationError and not both, whenever the upstream call returns a
    response with a string [text] or none at all, or throws an error the
    [catch] block can answer: in [part_000] one whose [message] is a string
    or an array holding "API_KEY_INVALID" ([part_000_readable]), in
    [server.js] one that is not [undefined] or [null], whose relayed message
    can be read and converted to a string and whose recovered status is an
    integer from 100 to 999 ([server_js_readable]). *)
Theorem exactly_one_response (ai : value -> settled) (body : value) :
  ToBoolean (own body "prompt") = true ->
  (fulfils_only ai (Part000.handler ai body) has_text ->
   rejects_only ai (Part000.handler ai body) part_000_readable ->
   one_response (Part000.handler ai body)) /\
  (fulfils_only ai (ServerJs.handler ai body) has_text ->
   rejects_only ai (ServerJs.handler ai body) server_js_readable ->
   one_response (ServerJs.handler ai body)).
Proof.
  intros Hp. split; intros Htext Hshape.
  - pose proof (Hshape (Part000_params body)) as Hs.
    pose proof (Htext (Part000_params body)) as Ht.
    rewrite (Part000_upstream_calls _ _ Hp) in Hs, Ht.
    rewrite (Part000_handler_run _ _ Hp).
    destruct (ai (Part000_params body)) as [r|e].
    + specialize (Ht r (or_introl eq_refl) eq_refl). unfold has_text in Ht.
      destruct (Get r "text") as [text|e|n] eqn:Hg.
      * apply Get_normal_not_nullish in Hg as [Hn ->]. rewrite Hn in Ht.
        destruct (own r "text"); try discriminate. apply one_response_result.
      * apply Get_throw_TypeError in Hg as [m ->].
        apply one_response_Part000_on_error, TypeError_readable.
      * destruct (Get_not_Exit _ _ _ Hg).
    + apply one_response_Part000_on_error, Hs; [left|]; reflexivity.
  - pose proof (Hshape (ServerJs_params body)) as Hs.
    pose proof (Htext (ServerJs_params body)) as Ht.
    rewrite (ServerJs_upstream_calls _ _ Hp) in Hs, Ht.
    rewrite (ServerJs_handler_run _ _ Hp).
    destruct (ai (ServerJs_params body)) as [r|e].
    + specialize (Ht r (or_introl eq_refl) eq_refl). unfold has_text in Ht.
      destruct (Get r "text") as [text|e|n] eqn:Hg.
      * apply Get_normal_not_nullish in Hg as [Hn ->]. rewrite Hn in Ht.
        destruct (own r "text"); try discriminate. apply one_response_result.
      * apply Get_throw_TypeError in Hg as [m ->].
        apply one_response_ServerJs_on_error, TypeError_readable.
      * destruct (Get_not_Exit _ _ _ Hg).
    + apply one_response_ServerJs_on_error, Hs; [left|]; reflexivity.
Qed.

(** The theorem at a sample input. *)
Lemma exactly_one_response_witness :
  one_response (Part000.handler (fails invalid_key_error) sample_body) /\
  one_response (ServerJs.handler (fails invalid_key_error) sample_body).
Proof.
  pose proof (exactly_one_response (fails invalid_key_error) sample_body eq_refl)
    as [H1 H2].
  split; [apply H1 | apply H2];
    solve [ intros p r _ H; discriminate H
          | intros p e _ H; injection H as <-; reflexivity ].
Defined.

(** Four runs that do not send one response of the two shapes.  On an error
    without a message the [catch] block of [part_000] throws, and so does
    that of [server.js] on [undefined] and on an error whose status is
    1000, which [res.status] refuses; no response is sent.  And a response
    of the upstream without [text] is relayed as [{ text: undefined }],
    which is neither a GenerationResult nor a GenerationError. *)
Lemma catch_block_can_throw :
  ToBoolean (own sample_body "prompt") = true /\
  (fst (Part000.handler (fails (JObj [])) sample_body) =
     Throw (TypeError (js "Cannot read properties of undefined (reading 'includes')")) /\
   responses (snd (Part000.handler (fails (JObj [])) sample_body)) = []) /\
  (fst (ServerJs.handler (fails JUndefined) sample_body) =
     Throw (TypeError (js "Cannot read properties of undefined (reading 'message')")) /\
   responses (snd (ServerJs.handler (fails JUndefined) sample_body)) = []) /\
  (fst (ServerJs.handler (fails status_1000_error) sample_body) =
     Throw (RangeError (js "Invalid status code: 1000. Status code must be greater than 99 and less than 1000.")) /\
   responses (snd (ServerJs.handler (fails status_1000_error) sample_body)) = []) /\
  (responses (snd (ServerJs.handler (answers (JObj [])) sample_body)) =
     [(num 200, JObj [("text"%string, JUndefined)])] /\
   responses (snd (Part000.handler (answers (JObj [])) sample_body)) =
     [(num 200, JObj [("text"%string, JUndefined)])] /\
   is_GenerationResult (JObj [("text"%string, JUndefined)]) = false /\
   is_GenerationError (JObj [("text"%string, JUndefined)]) = false).
Proof. repeat split. Qed.




(** C5.  When the upstream call succeeds with a response that has a [text]
    field, the one response sent has status 200 and the body [{ text }] with
    that very value; in both files. *)
Theorem text_relayed_verbatim (ai : value -> settled) (body r text : value) :
  ToBoolean (own body "prompt") = true ->
  Get r "text" = Normal text ->
  (fulfilled_with ai (ServerJs.handler ai body) r ->
   responses (snd (ServerJs.handler ai body)) = [(num 200, JObj [("text"%string, text)])]) /\
  (fulfilled_with ai (Part000.handler ai body) r ->
   responses (snd (Part000.handler ai body)) = [(num 200, JObj [("text"%string, text)])]).
Proof.
  intros Hp Ht. split; intros Hf.
  - pose proof (Hf (ServerJs_params body)) as H.
    rewrite (ServerJs_upstream_calls _ _ Hp) in H.
    rewrite (ServerJs_handler_run _ _ Hp), H, Ht; [reflexivity | left; reflexivity].
  - pose proof (Hf (Part000_params body)) as H.
    rewrite (Part000_upstream_calls _ _ Hp) in H.
    rewrite (Part000_handler_run _ _ Hp), H, Ht; [reflexivity | left; reflexivity].
Qed.

(** The theorem at a sample input. *)
Lemma text_relayed_verbatim_witness :
  responses (snd (ServerJs.handler (answers sample_response) sample_body))
    = [(num 200, JObj [("text"%string, JStr (js "ok"))])] /\
  responses (snd (Part000.handler (answers sample_response) sample_body))
    = [(num 200, JObj [("text"%string, JStr (js "ok"))])].
Proof.
  pose proof (text_relayed_verbatim (answers sample_response) sample_body
                sample_response (JStr (js "ok")) eq_refl eq_refl) as [H1 H2].
  split; [apply H1 | apply H2]; intros p _; reflexivity.
Defined.

(** C6, as amended.  For a request with a truthy prompt, [maxOutputTokens]
    passed upstream by [part_000] is [options.maxOutputTokens] when that is
    present and truthy and 2048 otherwise; [server.js] does not read
    [options] and always passes 2048. *)
Theorem maxOutputTokens_passed_upstream (ai : value -> settled) (body : value) :
  ToBoolean (own body "prompt") = true ->
  let supplied := own (own body "options") "maxOutputTokens" in
  upstream_config (Part000.handler ai body) "maxOutputTokens"
    = [if ToBoolean supplied then supplied else num 2048] /\
  upstream_config (ServerJs.handler ai body) "maxOutputTokens" = [num 2048].
Proof.
  intros Hp. unfold upstream_config.
  rewrite (Part000_upstream_calls _ _ Hp), (ServerJs_upstream_calls _ _ Hp).
  split; reflexivity.
Qed.

(** The theorem at a sample input. *)
Lemma maxOutputTokens_passed_upstream_witness :
  upstream_config (Part000.handler (answers sample_response) sample_body) "maxOutputTokens"
    = [num 64] /\
  upstream_config (ServerJs.handler (answers sample_response) sample_body) "maxOutputTokens"
    = [num 2048].
Proof.
  apply (maxOutputTokens_passed_upstream (answers sample_response) sample_body).
  reflexivity.
Defined.

(** [server.js] passes 2048 although the request supplies 64. *)
Lemma server_js_ignores_maxOutputTokens :
  ToBoolean (own sample_body "prompt") = true /\
  own (own sample_body "options") "maxOutputTokens" = num 64 /\
  ToBoolean (num 64) = true /\
  upstream_config (ServerJs.handler (answers sample_response) sample_body) "maxOutputTokens"
    = [num 2048] /\
  num 2048 <> num 64.
Proof. repeat split; try reflexivity. vm_compute. discriminate. Qed.




(** C8, as amended.  If [GEMINI_API_KEY] is unset or empty, the process
    prints its two diagnostics and exits with status 1 without listening;
    if it is set to a non-empty value, the process listens on [PORT], or on
    3000 when [PORT] is unset or empty; in both files. *)
Theorem api_key_guard (env : gmap string jsstring) :
  ((env !! "GEMINI_API_KEY"%string = None \/ env !! "GEMINI_API_KEY"%string = Some []) ->
   (ServerJs.main env =
      (Exit 1, [ConsoleError [ServerJs.fatal_message];
                ConsoleError [ServerJs.restart_message]]) /\
    listens (snd (ServerJs.main env)) = []) /\
   (Part000.main env =
      (Exit 1, [ConsoleError [Part000.fatal_message];
                ConsoleError [Part000.restart_message]]) /\
    listens (snd (Part000.main env)) = [])) /\
  (forall c key, env !! "GEMINI_API_KEY"%string = Some (c :: key) ->
   ServerJs.main env = (Normal tt, [Listen (js_or (env_get env "PORT") (num 3000))]) /\
   Part000.main env = (Normal tt, [Listen (js_or (env_get env "PORT") (num 3000))])).
Proof.
  split.
  - intros H. unfold ServerJs.main, Part000.main, env_get.
    destruct H as [-> | ->]; repeat split.
  - intros c key H.
    assert (env_get env "GEMINI_API_KEY" = JStr (c :: key)) as Hkey
      by (unfold env_get; rewrite H; reflexivity).
    unfold ServerJs.main, Part000.main. rewrite Hkey. split; reflexivity.
Qed.

(** The theorem at a sample input. *)
Lemma api_key_guard_witness :
  ((ServerJs.main ∅ =
      (Exit 1, [ConsoleError [ServerJs.fatal_message];
                ConsoleError [ServerJs.restart_message]]) /\
    listens (snd (ServerJs.main ∅)) = []) /\
   (Part000.main ∅ =
      (Exit 1, [ConsoleError [Part000.fatal_message];
                ConsoleError [Part000.restart_message]]) /\
    listens (snd (Part000.main ∅)) = [])) /\
  (ServerJs.main {[ "GEMINI_API_KEY"%string := js "secret" ]} = (Normal tt, [Listen (num 3000)]) /\
   Part000.main {[ "GEMINI_API_KEY"%string := js "secret" ]} = (Normal tt, [Listen (num 3000)])).
Proof.
  split.
  - apply (proj1 (api_key_guard ∅)). left. reflexivity.
  - pose proof (proj2 (api_key_guard {[ "GEMINI_API_KEY"%string := js "secret" ]})
                  115%N (js "ecret") eq_refl) as H.
    vm_compute in H |- *. exact H.
Defined.

(** A key that is set, but empty: the process exits. *)
Lemma empty_api_key_exits :
  ({[ "GEMINI_API_KEY"%string := [] ]} : gmap string jsstring) !! "GEMINI_API_KEY"%string
    = Some [] /\
  ServerJs.main {[ "GEMINI_API_KEY"%string := [] ]} =
    (Exit 1, [ConsoleError [ServerJs.fatal_message];
              ConsoleError [ServerJs.restart_message]]) /\
  listens (snd (ServerJs.main {[ "GEMINI_API_KEY"%string := [] ]})) = [].
Proof. repeat split; vm_compute; reflexivity. Qed.

(** C9, as amended.  Whatever the limiter holds, a request of a source IP
    that finds no window of that IP open opens one of 15 minutes.  When it
    and the requests of that IP after it in the window are 100, each of
    them was passed to the handler, and the next request of that IP within
    the window is answered with status 429 and the configured message,
    without reaching the handler: [{ error: "Too many requests, please try
    again later." }] in [server.js], and the same text followed by
    " (Proxy Rate Limit)" in [part_000]. *)
Theorem over_quota_request_rejected (ai : value -> settled)
    (store : gmap string RateLimit.client) (first : request) (rs : list request)
    (r : request) :
  ip first = ip r ->
  (forall c, store !! ip r = Some c -> RateLimit.resetTime c <= arrival first) ->
  (forall q, In q (rs ++ [r]) -> ip q = ip r ->
             arrival first <= arrival q < arrival first + 15 * 60 * 1000) ->
  length (from_ip (ip r) (first :: rs)) = 100%nat ->
  ((forall i q, (first :: rs) !! i = Some q -> ip q = ip r ->
      snd (ServerJs.serve ai (first :: rs) store) !! i
        = Some (ServerJs.handler ai (req_body q))) /\
   snd (ServerJs.api_gemini ai r (fst (ServerJs.serve ai (first :: rs) store))) =
     (Normal tt,
      [Respond (num 429)
         (JObj [("error"%string, JStr (js "Too many requests, please try again later."))])]))
  /\
  ((forall i q, (first :: rs) !! i = Some q -> ip q = ip r ->
      snd (Part000.serve ai (first :: rs) store) !! i
        = Some (Part000.handler ai (req_body q))) /\
   snd (Part000.api_gemini ai r (fst (Part000.serve ai (first :: rs) store))) =
     (Normal tt,
      [Respond (num 429)
         (JObj [("error"%string,
                 JStr (js "Too many requests, please try again later. (Proxy Rate Limit)"))])])).
Proof.
  intros Hf Hold Hin Hlen.
  assert (1 + Z.of_nat (length (from_ip (ip r) rs)) = 100) as Hquota.
  { unfold from_ip in Hlen |- *. rewrite filter_cons in Hlen.
    destruct (decide (ip first = ip r)); [|contradiction]. simpl in Hlen. lia. }
  split.
  - rewrite ServerJs_serve_with.
    change (ServerJs.api_gemini ai r) with (route ServerJs.apiLimiter (ServerJs.handler ai) r).
    destruct (window_quota ServerJs.apiLimiter (ServerJs.handler ai) (ip r) (arrival first)
                first rs r store Hf eq_refl eq_refl Hold Hin Hquota) as [Hpass Hnext].
    split; [exact Hpass | rewrite Hnext; reflexivity].
  - rewrite Part000_serve_with.
    change (Part000.api_gemini ai r) with (route Part000.apiLimiter (Part000.handler ai) r).
    destruct (window_quota Part000.apiLimiter (Part000.handler ai) (ip r) (arrival first)
                first rs r store Hf eq_refl eq_refl Hold Hin Hquota) as [Hpass Hnext].
    split; [exact Hpass | rewrite Hnext; reflexivity].
Qed.

(** The theorem at a sample input: the limiter holds a window of the
    address that was full and has ended. *)
Lemma over_quota_request_rejected_witness :
  ((forall i q, (client_request 900000 :: repeat (client_request 900001) 99) !! i = Some q ->
      ip q = ip (client_request 1000000) ->
      snd (ServerJs.serve (answers sample_response)
             (client_request 900000 :: repeat (client_request 900001) 99) ended_window) !! i
        = Some (ServerJs.handler (answers sample_response) (req_body q))) /\
   snd (ServerJs.api_gemini (answers sample_response) (client_request 1000000)
          (fst (ServerJs.serve (answers sample_response)
                  (client_request 900000 :: repeat (client_request 900001) 99)
                  ended_window))) =
     (Normal tt,
      [Respond (num 429)
         (JObj [("error"%string, JStr (js "Too many requests, please try again later."))])]))
  /\
  ((forall i q, (client_request 900000 :: repeat (client_request 900001) 99) !! i = Some q ->
      ip q = ip (client_request 1000000) ->
      snd (Part000.serve (answers sample_response)
             (client_request 900000 :: repeat (client_request 900001) 99) ended_window) !! i
        = Some (Part000.handler (answers sample_response) (req_body q))) /\
   snd (Part000.api_gemini (answers sample_response) (client_request 1000000)
          (fst (Part000.serve (answers sample_response)
                  (client_request 900000 :: repeat (client_request 900001) 99)
                  ended_window))) =
     (Normal tt,
      [Respond (num 429)
         (JObj [("error"%string,
                 JStr (js "Too many requests, please try again later. (Proxy Rate Limit)"))])])).
Proof.
  apply (over_quota_request_rejected (answers sample_response) ended_window
           (client_request 900000) (repeat (client_request 900001) 99)
           (client_request 1000000)).
  - reflexivity.
  - intros c Hc. unfold ended_window in Hc. simpl in Hc.
    rewrite lookup_singleton_eq in Hc. injection Hc as <-. simpl. lia.
  - intros q Hq _. apply in_app_or in Hq as [Hq|[<-|[]]].
    + apply repeat_spec in Hq as ->. simpl. lia.
    + simpl. lia.
  - vm_compute. reflexivity.
Defined.

(** The message of [part_000] is not the one of [server.js]. *)
Lemma part_000_limit_message :
  snd (Part000.api_gemini (answers sample_response) (client_request 1000)
         (fst (Part000.serve (answers sample_response) (repeat (client_request 0) 100) ∅))) =
    (Normal tt,
     [Respond (num 429)
        (JObj [("error"%string,
                JStr (js "Too many requests, please try again later. (Proxy Rate Limit)"))])]) /\
  JStr (js "Too many requests, please try again later. (Proxy Rate Limit)")
    <> JStr (js "Too many requests, please try again later.").
Proof. split; [vm_compute; reflexivity | vm_compute; discriminate]. Qed.

(** C10.  A numeric option equal to zero counts as absent: for a request
    with a truthy prompt whose [options.temperature] is [+0] or [-0], the
    temperature passed upstream is the default (0.2 when [isJson] is truthy,
    else 0.7), and when [options.maxOutputTokens] is zero, 2048 is passed;
    in both files. *)
Theorem zero_option_is_absent (ai : value -> settled) (body : value) (s : bool) :
  ToBoolean (own body "prompt") = true ->
  let default :=
    if ToBoolean (own body "isJson") then JNum (decimal 2 (-1)) else JNum (decimal 7 (-1)) in
  (own (own body "options") "temperature" = JNum (S754_zero s) ->
   upstream_config (Part000.handler ai body) "temperature" = [default] /\
   upstream_config (ServerJs.handler ai body) "temperature" = [default]) /\
  (own (own body "options") "maxOutputTokens" = JNum (S754_zero s) ->
   upstream_config (Part000.handler ai body) "maxOutputTokens" = [num 2048] /\
   upstream_config (ServerJs.handler ai body) "maxOutputTokens" = [num 2048]).
Proof.
  intros Hp default. unfold upstream_config.
  rewrite (Part000_upstream_calls _ _ Hp), (ServerJs_upstream_calls _ _ Hp).
  split; intros H; simpl; rewrite H; split; reflexivity.
Qed.

(** The theorem at a sample input. *)
Lemma zero_option_is_absent_witness :
  (upstream_config (Part000.handler (answers sample_response) zero_options_body) "temperature"
     = [JNum (decimal 2 (-1))] /\
   upstream_config (ServerJs.handler (answers sample_response) zero_options_body) "temperature"
     = [JNum (decimal 2 (-1))]) /\
  (upstream_config (Part000.handler (answers sample_response) zero_options_body)
     "maxOutputTokens" = [num 2048] /\
   upstream_config (ServerJs.handler (answers sample_response) zero_options_body)
     "maxOutputTokens" = [num 2048]).
Proof.
  pose proof (zero_option_is_absent (answers sample_response) zero_options_body false
                eq_refl) as [H1 H2].
  split; [apply H1 | apply H2]; reflexivity.
Defined.

(** ** Further properties of the two files *)

(** *** The argument of the upstream call *)

(** X1.  For a request with a truthy prompt, the model passed upstream is
    the client's [model] when that is truthy and ["gemini-2.5-flash"]
    otherwise; in both files. *)
Theorem model_passed_upstream (ai : value -> settled) (body : value) :
  ToBoolean (own body "prompt") = true ->
  let model :=
    if ToBoolean (own body "model") then own body "model"
    else JStr (js "gemini-2.5-flash") in
  upstream_field (ServerJs.handler ai body) "model" = [model] /\
  upstream_field (Part000.handler ai body) "model" = [model].
Proof.
  intros Hp model. unfold upstream_field.
  rewrite (ServerJs_upstream_calls _ _ Hp), (Part000_upstream_calls _ _ Hp).
  split; reflexivity.
Qed.

(** The theorem at a sample input. *)
Lemma model_passed_upstream_witness :
  (upstream_field (ServerJs.handler (answers sample_response) verbose_body) "model"
     = [JStr (js "gemini-2.5-pro")] /\
   upstream_field (Part000.handler (answers sample_response) verbose_body) "model"
     = [JStr (js "gemini-2.5-pro")]) /\
  (upstream_field (ServerJs.handler (answers sample_response) sample_body) "model"
     = [JStr (js "gemini-2.5-flash")] /\
   upstream_field (Part000.handler (answers sample_response) sample_body) "model"
     = [JStr (js "gemini-2.5-flash")]).
Proof.
  split.
  - apply (model_passed_upstream (answers sample_response) verbose_body). reflexivity.
  - apply (model_passed_upstream (answers sample_response) sample_body). reflexivity.
Defined.

(** X2.  For a request with a truthy prompt, the response MIME type passed
    upstream is ["application/json"] when [isJson] is truthy and
    ["text/plain"] otherwise; in both files. *)
Theorem responseMimeType_passed_upstream (ai : value -> settled) (body : value) :
  ToBoolean (own body "prompt") = true ->
  let mime :=
    if ToBoolean (own body "isJson") then JStr (js "application/json")
    else JStr (js "text/plain") in
  upstream_config (ServerJs.handler ai body) "responseMimeType" = [mime] /\
  upstream_config (Part000.handler ai body) "responseMimeType" = [mime].
Proof.
  intros Hp mime. unfold upstream_config.
  rewrite (ServerJs_upstream_calls _ _ Hp), (Part000_upstream_calls _ _ Hp).
  split; reflexivity.
Qed.

(** The theorem at a sample input. *)
Lemma responseMimeType_passed_upstream_witness :
  (upstream_config (ServerJs.handler (answers sample_response) verbose_body)
     "responseMimeType" = [JStr (js "application/json")] /\
   upstream_config (Part000.handler (answers sample_response) verbose_body)
     "responseMimeType" = [JStr (js "application/json")]) /\
  (upstream_config (ServerJs.handler (answers sample_response) sample_body)
     "responseMimeType" = [JStr (js "text/plain")] /\
   upstream_config (Part000.handler (answers sample_response) sample_body)
     "responseMimeType" = [JStr (js "text/plain")]).
Proof.
  split.
  - apply (responseMimeType_passed_upstream (answers sample_response) verbose_body).
    reflexivity.
  - apply (responseMimeType_passed_upstream (answers sample_response) sample_body).
    reflexivity.
Defined.

(** X3.  For a request with a truthy prompt, the conversation passed
    upstream is a single message of the role ["user"] with a single part,
    whose text is the prompt as the body holds it, a string or not; in both
    files. *)
Theorem prompt_passed_upstream (ai : value -> settled) (body : value) :
  ToBoolean (own body "prompt") = true ->
  let contents :=
    JArr [JObj [("role"%string, JStr (js "user"));
                ("parts"%string, JArr [JObj [("text"%string, own body "prompt")]])]] in
  upstream_field (ServerJs.handler ai body) "contents" = [contents] /\
  upstream_field (Part000.handler ai body) "contents" = [contents].
Proof.
  intros Hp contents. unfold upstream_field.
  rewrite (ServerJs_upstream_calls _ _ Hp), (Part000_upstream_calls _ _ Hp).
  split; reflexivity.
Qed.

(** The theorem at a sample input: a prompt that is a number. *)
Lemma prompt_passed_upstream_witness :
  upstream_field
    (ServerJs.handler (answers sample_response) (JObj [("prompt"%string, num 42)]))
    "contents"
  = [JArr [JObj [("role"%string, JStr (js "user"));
               ("parts"%string, JArr [JObj [("text"%string, num 42)]])]]] /\
  upstream_field
    (Part000.handler (answers sample_response) (JObj [("prompt"%string, num 42)]))
    "contents"
  = [JArr [JObj [("role"%string, JStr (js "user"));
               ("parts"%string, JArr [JObj [("text"%string, num 42)]])]]].
Proof.
  apply (prompt_passed_upstream (answers sample_response) (JObj [("prompt"%string, num 42)])).
  reflexivity.
Defined.

(** X4.  The client cannot add to the upstream call: its argument has the
    fields [model], [contents] and [config], the configuration has the four
    fields [temperature], [maxOutputTokens], [responseMimeType] and
    [safetySettings] and no other, whatever the body and its [options]
    hold, and the safety settings are the file's own. *)
Theorem upstream_argument_is_closed (ai : value -> settled) (body : value) :
  ToBoolean (own body "prompt") = true ->
  (map keys (upstream_calls (snd (ServerJs.handler ai body)))
     = [["model"; "contents"; "config"]%string] /\
   map keys (upstream_field (ServerJs.handler ai body) "config")
     = [["temperature"; "maxOutputTokens"; "responseMimeType"; "safetySettings"]%string] /\
   upstream_config (ServerJs.handler ai body) "safetySettings" = [ServerJs.safetySettings]) /\
  (map keys (upstream_calls (snd (Part000.handler ai body)))
     = [["model"; "contents"; "config"]%string] /\
   map keys (upstream_field (Part000.handler ai body) "config")
     = [["temperature"; "maxOutputTokens"; "responseMimeType"; "safetySettings"]%string] /\
   upstream_config (Part000.handler ai body) "safetySettings" = [Part000.safetySettings]).
Proof.
  intros Hp. unfold upstream_config, upstream_field.
  rewrite (ServerJs_upstream_calls _ _ Hp), (Part000_upstream_calls _ _ Hp).
  repeat split.
Qed.

(** The theorem at a sample input: a body with fields of its own. *)
Lemma upstream_argument_is_closed_witness :
  (map keys (upstream_calls (snd (ServerJs.handler (answers sample_response) verbose_body)))
     = [["model"; "contents"; "config"]%string] /\
   map keys (upstream_field (ServerJs.handler (answers sample_response) verbose_body) "config")
     = [["temperature"; "maxOutputTokens"; "responseMimeType"; "safetySettings"]%string] /\
   upstream_config (ServerJs.handler (answers sample_response) verbose_body) "safetySettings"
     = [ServerJs.safetySettings]) /\
  (map keys (upstream_calls (snd (Part000.handler (answers sample_response) verbose_body)))
     = [["model"; "contents"; "config"]%string] /\
   map keys (upstream_field (Part000.handler (answers sample_response) verbose_body) "config")
     = [["temperature"; "maxOutputTokens"; "responseMimeType"; "safetySettings"]%string] /\
   upstream_config (Part000.handler (answers sample_response) verbose_body) "safetySettings"
     = [Part000.safetySettings]).
Proof.
  apply (upstream_argument_is_closed (answers sample_response) verbose_body). reflexivity.
Defined.

(** *** Validation *)

(** X5.  With a body it can destructure, the handler answers "Missing
    prompt" exactly when the prompt is falsy: [null], [false], zero and
    [NaN] are turned away like an absent prompt, and any truthy prompt goes
    upstream; in both files. *)
Theorem rejected_iff_prompt_falsy (ai : value -> settled) (body : value) :
  nullish body = false ->
  (ServerJs.handler ai body = missing_prompt <-> ToBoolean (own body "prompt") = false) /\
  (Part000.handler ai body = missing_prompt <-> ToBoolean (own body "prompt") = false).
Proof.
  intros Hn. split; split; intros H.
  - destruct (ToBoolean (own body "prompt")) eqn:Hp; [|reflexivity].
    pose proof (ServerJs_upstream_calls ai _ Hp) as Hc. rewrite H in Hc. discriminate.
  - apply ServerJs_handler_falsy; assumption.
  - destruct (ToBoolean (own body "prompt")) eqn:Hp; [|reflexivity].
    pose proof (Part000_upstream_calls ai _ Hp) as Hc. rewrite H in Hc. discriminate.
  - apply Part000_handler_falsy; assumption.
Qed.

(** The theorem at a sample input: the prompt [0]. *)
Lemma rejected_iff_prompt_falsy_witness :
  ServerJs.handler (answers sample_response) (JObj [("prompt"%string, num 0)])
    = missing_prompt /\
  Part000.handler (answers sample_response) (JObj [("prompt"%string, num 0)])
    = missing_prompt.
Proof.
  pose proof (rejected_iff_prompt_falsy (answers sample_response)
                (JObj [("prompt"%string, num 0)]) eq_refl) as [H1 H2].
  split; [apply H1 | apply H2]; reflexivity.
Defined.

(** X6.  Without a body ([undefined] or [null]) the handler throws a
    [TypeError] at its first statement: it sends no response and makes no
    upstream call; in both files. *)
Theorem no_body_no_response (ai : value -> settled) (body : value) :
  nullish body = true ->
  exists message,
    ServerJs.handler ai body = (Throw (TypeError message), []) /\
    Part000.handler ai body = (Throw (TypeError message), []).
Proof.
  intros Hn. destruct body; try discriminate; eexists; split; reflexivity.
Qed.

(** The theorem at a sample input. *)
Lemma no_body_no_response_witness :
  exists message,
    ServerJs.handler (answers sample_response) JNull = (Throw (TypeError message), []) /\
    Part000.handler (answers sample_response) JNull = (Throw (TypeError message), []).
Proof. apply no_body_no_response. reflexivity. Defined.

(** X7.  With a truthy prompt the upstream call is the first thing the
    handler does and the only call it makes, whether the call succeeds or
    fails: there is no retry; in both files. *)
Theorem one_upstream_call_first (ai : value -> settled) (body : value) :
  ToBoolean (own body "prompt") = true ->
  (exists params rest,
     snd (ServerJs.handler ai body) = GenerateContent params :: rest /\
     upstream_calls rest = []) /\
  (exists params rest,
     snd (Part000.handler ai body) = GenerateContent params :: rest /\
     upstream_calls rest = []).
Proof.
  intros Hp. split.
  - exists (ServerJs_params body). rewrite (ServerJs_handler_run _ _ Hp).
    destruct (ai (ServerJs_params body)) as [r|e]; [destruct (Get r "text")|];
      eexists; (split; [reflexivity|]); try reflexivity; apply ServerJs_on_error_quiet.
  - exists (Part000_params body). rewrite (Part000_handler_run _ _ Hp).
    destruct (ai (Part000_params body)) as [r|e]; [destruct (Get r "text")|];
      eexists; (split; [reflexivity|]); try reflexivity; apply Part000_on_error_quiet.
Qed.

(** The theorem at a sample input: an upstream that fails. *)
Lemma one_upstream_call_first_witness :
  (exists params rest,
     snd (ServerJs.handler (fails not_found_error) sample_body)
       = GenerateContent params :: rest /\
     upstream_calls rest = []) /\
  (exists params rest,
     snd (Part000.handler (fails not_found_error) sample_body)
       = GenerateContent params :: rest /\
     upstream_calls rest = []).
Proof. apply one_upstream_call_first. reflexivity. Defined.

(** *** Strings: the part before a marker, and trimming *)

Lemma prefixb_app p a b : prefixb p a = true -> prefixb p (a ++ b) = true.
Proof.
  rewrite !prefixb_spec. intros [post ->]. exists (post ++ b).
  rewrite <- app_assoc. reflexivity.
Qed.

Lemma before_prefix sep s : exists rest, s = before sep s ++ rest.
Proof.
  induction s as [|c s [rest IH]]; simpl.
  - exists []. reflexivity.
  - destruct (prefixb sep (c :: s)).
    + exists (c :: s). reflexivity.
    + exists rest. simpl. rewrite <- IH. reflexivity.
Qed.

Lemma before_excludes c0 sep s : String_includes (before (c0 :: sep) s) (c0 :: sep) = false.
Proof.
  induction s as [|c s IH]; [reflexivity|].
  cbn [before]. destruct (prefixb (c0 :: sep) (c :: s)) eqn:Hp; [reflexivity|].
  cbn [String_includes]. rewrite IH, orb_false_r.
  destruct (prefixb (c0 :: sep) (c :: before (c0 :: sep) s)) eqn:Hq; [|reflexivity].
  destruct (before_prefix (c0 :: sep) s) as [rest Hrest].
  apply (prefixb_app _ _ rest) in Hq. simpl app in Hq. rewrite <- Hrest in Hq.
  congruence.
Qed.

Lemma before_all sep s : String_includes s sep = false -> before sep s = s.
Proof.
  induction s as [|c s IH]; [reflexivity|].
  cbn [String_includes before]. intros H. apply orb_false_elim in H as [-> H].
  rewrite (IH H). reflexivity.
Qed.

Lemma hd_split_go c0 sep s acc :
  hd [] (split_go (c0 :: sep) s acc O) = rev acc ++ before (c0 :: sep) s.
Proof.
  revert acc. induction s as [|c s IH]; intros acc.
  - simpl. rewrite app_nil_r. reflexivity.
  - cbn [split_go before]. destruct (prefixb (c0 :: sep) (c :: s)).
    + simpl. rewrite app_nil_r. reflexivity.
    + rewrite IH. simpl. rewrite <- app_assoc. reflexivity.
Qed.

Lemma hd_split c0 sep s :
  hd [] (String_split s (c0 :: sep)) = before (c0 :: sep) s.
Proof. unfold String_split. apply hd_split_go. Qed.

Lemma trim_start_suffix s :
  exists ws, s = ws ++ trim_start s /\ blank ws = true.
Proof.
  induction s as [|c s (ws & IH & Hws)]; simpl.
  - exists []. split; reflexivity.
  - destruct (is_white_space c) eqn:Hc.
    + exists (c :: ws). split; [simpl; rewrite <- IH; reflexivity|].
      simpl. rewrite Hc. exact Hws.
    + exists []. split; reflexivity.
Qed.

Lemma trim_start_idem s : trim_start (trim_start s) = trim_start s.
Proof.
  induction s as [|c s IH]; [reflexivity|]. simpl.
  destruct (is_white_space c) eqn:Hc; [exact IH|]. simpl. rewrite Hc. reflexivity.
Qed.

Lemma trim_start_head c s :
  is_white_space c = false -> trim_start (c :: s) = c :: s.
Proof. intros H. simpl. rewrite H. reflexivity. Qed.

Lemma trim_start_fixed_head c s :
  trim_start (c :: s) = c :: s -> is_white_space c = false.
Proof.
  simpl. destruct (is_white_space c); [|reflexivity]. intros H.
  destruct (trim_start_suffix s) as (ws & Hs & _).
  apply (f_equal (@length N)) in H. apply (f_equal (@length N)) in Hs.
  rewrite length_app in Hs. simpl in H. lia.
Qed.

(** A trimmed string is a part of the string, and trimming it again
    changes nothing. *)
Lemma String_trim_part s : exists a b, s = a ++ String_trim s ++ b.
Proof.
  unfold String_trim.
  destruct (trim_start_suffix s) as (a & Ha & _).
  destruct (trim_start_suffix (rev (trim_start s))) as (ws & Hw & _).
  exists a, (rev ws). rewrite <- rev_app_distr, <- Hw, rev_involutive. exact Ha.
Qed.

Lemma String_trim_idem s : String_trim (String_trim s) = String_trim s.
Proof.
  unfold String_trim.
  set (t := trim_start s). set (u := trim_start (rev t)).
  assert (trim_start (rev u) = rev u) as Hclean.
  { destruct (rev u) as [|c r] eqn:Hr; [reflexivity|].
    apply trim_start_head.
    destruct (trim_start_suffix (rev t)) as (ws & Hw & _). fold u in Hw.
    apply (f_equal (@rev N)) in Hw. rewrite rev_involutive, rev_app_distr, Hr in Hw.
    apply (trim_start_fixed_head c (r ++ rev ws)).
    simpl in Hw. rewrite <- Hw. unfold t. apply trim_start_idem. }
  rewrite Hclean, rev_involutive. unfold u. rewrite trim_start_idem. reflexivity.
Qed.

Lemma String_includes_part s a x b p :
  s = a ++ x ++ b -> String_includes x p = true -> String_includes s p = true.
Proof.
  intros -> H. apply String_includes_spec in H as (pre & post & ->).
  apply String_includes_spec. exists (a ++ pre), (post ++ b).
  rewrite <- !app_assoc. reflexivity.
Qed.

Lemma String_trim_excludes s p :
  String_includes s p = false -> String_includes (String_trim s) p = false.
Proof.
  intros H. destruct (String_includes (String_trim s) p) eqn:Ht; [|reflexivity].
  destruct (String_trim_part s) as (a & b & Hs).
  rewrite (String_includes_part _ _ _ _ _ Hs Ht) in H. discriminate.
Qed.

Lemma blank_trim_start s : blank s = true -> trim_start s = [].
Proof.
  induction s as [|c s IH]; [reflexivity|]. simpl.
  intros H. apply andb_prop in H as [-> H]. auto.
Qed.

Lemma blank_trim s : blank s = true -> String_trim s = [].
Proof. intros H. unfold String_trim. rewrite (blank_trim_start _ H). reflexivity. Qed.

Lemma blank_app a b : blank (a ++ b) = blank a && blank b.
Proof. apply forallb_app. Qed.

Lemma blank_excludes s c p :
  is_white_space c = false -> blank s = true -> String_includes s (c :: p) = false.
Proof.
  intros Hc Hs. destruct (String_includes s (c :: p)) eqn:H; [|reflexivity].
  apply String_includes_spec in H as (pre & post & ->).
  rewrite blank_app in Hs. apply andb_prop in Hs as [_ Hs].
  simpl in Hs. rewrite Hc in Hs. discriminate.
Qed.

Lemma before_blank c0 sep ws tail :
  is_white_space c0 = false -> blank ws = true ->
  tail = [] \/ prefixb (c0 :: sep) tail = true ->
  before (c0 :: sep) (ws ++ tail) = ws.
Proof.
  intros Hc Hws Htail. induction ws as [|w ws IH].
  - simpl. destruct Htail as [->|Ht]; [reflexivity|].
    destruct tail as [|t tail]; [reflexivity|]. cbn [before]. rewrite Ht. reflexivity.
  - simpl in Hws. apply andb_prop in Hws as [Hw Hws].
    cbn [app before prefixb].
    destruct (N.eqb c0 w) eqn:He; [apply N.eqb_eq in He; congruence|].
    simpl. rewrite (IH Hws). reflexivity.
Qed.

(** *** The message [part_000] builds *)

Lemma apiErrorMessage_not_empty m : apiErrorMessage m <> [].
Proof.
  unfold apiErrorMessage. destruct (String_includes m (js "API_KEY_INVALID")).
  - discriminate.
  - destruct (String_trim _); discriminate.
Qed.

Lemma apiErrorMessage_of_trim m :
  String_includes m (js "API_KEY_INVALID") = false ->
  apiErrorMessage m =
    match String_trim (before (js "at GoogleGenAI") m) with
    | [] => js "Internal Server Error"
    | t => t
    end.
Proof.
  intros H. unfold apiErrorMessage. rewrite H.
  change (js "at GoogleGenAI") with (97%N :: js "t GoogleGenAI").
  rewrite hd_split. reflexivity.
Qed.

Lemma apiErrorMessage_excludes_marker m :
  String_includes (apiErrorMessage m) (js "at GoogleGenAI") = false.
Proof.
  destruct (String_includes m (js "API_KEY_INVALID")) eqn:Hk.
  - unfold apiErrorMessage. rewrite Hk. reflexivity.
  - rewrite (apiErrorMessage_of_trim _ Hk).
    pose proof (String_trim_excludes _ _
                  (before_excludes 97%N (js "t GoogleGenAI") m)) as H.
    change (97%N :: js "t GoogleGenAI") with (js "at GoogleGenAI") in H.
    destruct (String_trim (before (js "at GoogleGenAI") m)); [reflexivity | exact H].
Qed.

Lemma apiErrorMessage_trimmed m : String_trim (apiErrorMessage m) = apiErrorMessage m.
Proof.
  destruct (String_includes m (js "API_KEY_INVALID")) eqn:Hk.
  - unfold apiErrorMessage. rewrite Hk. reflexivity.
  - rewrite (apiErrorMessage_of_trim _ Hk).
    pose proof (String_trim_idem (before (js "at GoogleGenAI") m)) as H.
    destruct (String_trim (before (js "at GoogleGenAI") m)); [reflexivity | exact H].
Qed.

(** X8.  When the upstream call of [part_000] fails with an error whose
    message is a string, the message sent to the client after the prefix
    "Failed to call Gemini API: " is never empty, has no white space at
    either end, and does not contain the marker "at GoogleGenAI": the stack
    frames of the library are cut off. *)
Theorem part_000_message_is_clean (ai : value -> settled) (body e : value)
    (m : jsstring) :
  ToBoolean (own body "prompt") = true ->
  rejected_with ai (Part000.handler ai body) e ->
  own e "message" = JStr m ->
  exists text,
    responses (snd (Part000.handler ai body)) =
      [(num 500,
        JObj [("error"%string, JStr (js "Failed to call Gemini API: " ++ text));
              ("code"%string, num 500)])] /\
    text <> [] /\
    String_trim text = text /\
    String_includes text (js "at GoogleGenAI") = false.
Proof.
  intros Hp Hrej Hm. pose proof (own_string_not_nullish _ _ _ Hm) as Hn.
  exists (apiErrorMessage m). split; [|split; [|split]].
  - rewrite (rejected_with_Part000 _ _ _ Hp Hrej), (Part000_on_error_string _ _ Hn Hm).
    reflexivity.
  - apply apiErrorMessage_not_empty.
  - apply apiErrorMessage_trimmed.
  - apply apiErrorMessage_excludes_marker.
Qed.

(** The theorem at a sample input. *)
Lemma part_000_message_is_clean_witness :
  exists text,
    responses (snd (Part000.handler (fails quota_error) sample_body)) =
      [(num 500,
        JObj [("error"%string, JStr (js "Failed to call Gemini API: " ++ text));
              ("code"%string, num 500)])] /\
    text <> [] /\
    String_trim text = text /\
    String_includes text (js "at GoogleGenAI") = false.
Proof.
  apply (part_000_message_is_clean (fails quota_error) sample_body quota_error
           (js "  quota exceeded at GoogleGenAI.generateContent (index.js:10)")).
  - reflexivity.
  - intros p _. reflexivity.
  - reflexivity.
Defined.

(** X9.  When the upstream call of [part_000] fails with a message that
    contains neither "API_KEY_INVALID" nor "at GoogleGenAI" and is not
    blank, the client receives that message, trimmed, after the prefix: the
    upstream text is passed on as it is. *)
Theorem part_000_relays_plain_message (ai : value -> settled) (body e : value)
    (m : jsstring) :
  ToBoolean (own body "prompt") = true ->
  rejected_with ai (Part000.handler ai body) e ->
  own e "message" = JStr m ->
  String_includes m (js "API_KEY_INVALID") = false ->
  String_includes m (js "at GoogleGenAI") = false ->
  String_trim m <> [] ->
  responses (snd (Part000.handler ai body)) =
    [(num 500,
      JObj [("error"%string, JStr (js "Failed to call Gemini API: " ++ String_trim m));
            ("code"%string, num 500)])].
Proof.
  intros Hp Hrej Hm Hk Hmark Ht. pose proof (own_string_not_nullish _ _ _ Hm) as Hn.
  rewrite (rejected_with_Part000 _ _ _ Hp Hrej), (Part000_on_error_string _ _ Hn Hm).
  rewrite (apiErrorMessage_of_trim _ Hk), (before_all _ _ Hmark).
  destruct (String_trim m); [contradiction | reflexivity].
Qed.

(** The theorem at a sample input. *)
Lemma part_000_relays_plain_message_witness :
  responses (snd (Part000.handler (fails not_found_error) sample_body)) =
    [(num 500,
      JObj [("error"%string, JStr (js "Failed to call Gemini API: " ++ String_trim (js "Not Found")));
            ("code"%string, num 500)])].
Proof.
  apply (part_000_relays_plain_message (fails not_found_error) sample_body
           not_found_error (js "Not Found")).
  - reflexivity.
  - intros p _. reflexivity.
  - reflexivity.
  - reflexivity.
  - reflexivity.
  - vm_compute. discriminate.
Defined.

(** X10.  When the upstream call of [part_000] fails with a message that is
    empty or blank, or that has nothing but white space before its first
    "at GoogleGenAI", and that does not contain "API_KEY_INVALID", the
    client receives the generic message "Internal Server Error". *)
Theorem part_000_generic_message (ai : value -> settled) (body e : value)
    (ws tail : jsstring) :
  ToBoolean (own body "prompt") = true ->
  rejected_with ai (Part000.handler ai body) e ->
  own e "message" = JStr (ws ++ tail) ->
  blank ws = true ->
  tail = [] \/ prefixb (js "at GoogleGenAI") tail = true ->
  String_includes (ws ++ tail) (js "API_KEY_INVALID") = false ->
  responses (snd (Part000.handler ai body)) =
    [(num 500,
      JObj [("error"%string, JStr (js "Failed to call Gemini API: Internal Server Error"));
            ("code"%string, num 500)])].
Proof.
  intros Hp Hrej Hm Hws Htail Hk. pose proof (own_string_not_nullish _ _ _ Hm) as Hn.
  rewrite (rejected_with_Part000 _ _ _ Hp Hrej), (Part000_on_error_string _ _ Hn Hm).
  rewrite (apiErrorMessage_of_trim _ Hk).
  change (js "at GoogleGenAI") with (97%N :: js "t GoogleGenAI") in *.
  rewrite (before_blank 97%N _ ws tail eq_refl Hws Htail), (blank_trim _ Hws).
  reflexivity.
Qed.

(** The theorem at a sample input: an error with an empty message. *)
Lemma part_000_generic_message_witness :
  responses
    (snd (Part000.handler (fails (JObj [("message"%string, JStr [])])) sample_body)) =
    [(num 500,
      JObj [("error"%string, JStr (js "Failed to call Gemini API: Internal Server Error"));
            ("code"%string, num 500)])].
Proof.
  apply (part_000_generic_message (fails (JObj [("message"%string, JStr [])]))
           sample_body (JObj [("message"%string, JStr [])]) [] []).
  - reflexivity.
  - intros p _. reflexivity.
  - reflexivity.
  - reflexivity.
  - left. reflexivity.
  - reflexivity.
Defined.

(** *** Logging *)

Lemma console_errors_app t1 t2 :
  console_errors (t1 ++ t2) = console_errors t1 ++ console_errors t2.
Proof.
  induction t1 as [|ev t1 IH]; [reflexivity|].
  destruct ev; simpl; rewrite IH; reflexivity.
Qed.

Lemma silent_pure {A} (c : completion A) : silent (pure c).
Proof. reflexivity. Qed.

Lemma silent_ret {A} (a : A) : silent (ret a).
Proof. reflexivity. Qed.

Lemma silent_json_with_status code body : silent (json_with_status code body).
Proof. reflexivity. Qed.

Lemma silent_bind {A B} (m : M A) (k : A -> M B) :
  silent m -> (forall a, silent (k a)) -> silent (bind m k).
Proof.
  unfold silent. intros Hm Hk. destruct m as [[a|e|n] t]; simpl in *; auto.
  specialize (Hk a). destruct (k a) as [c t2]. simpl in *.
  rewrite console_errors_app, Hm, Hk. reflexivity.
Qed.

Lemma silent_if {A} (b : bool) (m1 m2 : M A) :
  silent m1 -> silent m2 -> silent (if b then m1 else m2).
Proof. destruct b; auto. Qed.

Ltac silent_run :=
  repeat first
    [ apply silent_pure | apply silent_ret | apply silent_json_with_status
    | apply silent_if
    | apply silent_bind; [|intros ?] ].

Lemma ServerJs_on_error_logs e :
  nullish e = false ->
  exists rest,
    snd (ServerJs.on_error e)
      = ConsoleError [JStr (js "Gemini API Error:"); own e "message"] :: rest /\
    console_errors rest = [].
Proof.
  intros Hn. unfold ServerJs.on_error.
  rewrite (Get_own _ _ Hn), bind_pure_normal. unfold console_error.
  rewrite bind_emit. eexists. split; [reflexivity|].
  match goal with |- console_errors (snd ?m) = [] => change (silent m) end.
  silent_run.
Qed.

Lemma Part000_on_error_logs e :
  nullish e = false ->
  exists rest,
    snd (Part000.on_error e)
      = ConsoleError [JStr (js "Gemini API Error:"); own e "message"] :: rest /\
    console_errors rest = [].
Proof.
  intros Hn. unfold Part000.on_error.
  rewrite (Get_own _ _ Hn), bind_pure_normal. unfold console_error.
  rewrite bind_emit. eexists. split; [reflexivity|].
  match goal with |- console_errors (snd ?m) = [] => change (silent m) end.
  silent_run.
Qed.

(** X11.  When the upstream call fails with an error other than [undefined]
    and [null], the handler prints "Gemini API Error:" and the error's
    [message], as it is, with [console.error], right after the call and
    before anything else, and prints nothing more, whatever the [catch]
    block does next; in both files. *)
Theorem upstream_error_is_logged (ai : value -> settled) (body e : value) :
  ToBoolean (own body "prompt") = true ->
  nullish e = false ->
  (rejected_with ai (ServerJs.handler ai body) e ->
   exists params rest,
     snd (ServerJs.handler ai body) =
       GenerateContent params
         :: ConsoleError [JStr (js "Gemini API Error:"); own e "message"] :: rest /\
     console_errors rest = []) /\
  (rejected_with ai (Part000.handler ai body) e ->
   exists params rest,
     snd (Part000.handler ai body) =
       GenerateContent params
         :: ConsoleError [JStr (js "Gemini API Error:"); own e "message"] :: rest /\
     console_errors rest = []).
Proof.
  intros Hp Hn. split; intros Hrej.
  - rewrite (rejected_with_ServerJs _ _ _ Hp Hrej).
    destruct (ServerJs_on_error_logs e Hn) as (rest & Hrest & Hsilent).
    exists (ServerJs_params body), rest. simpl. rewrite Hrest. auto.
  - rewrite (rejected_with_Part000 _ _ _ Hp Hrej).
    destruct (Part000_on_error_logs e Hn) as (rest & Hrest & Hsilent).
    exists (Part000_params body), rest. simpl. rewrite Hrest. auto.
Qed.

(** The theorem at a sample input: the invalid-key error, whose message the
    client does not see. *)
Lemma upstream_error_is_logged_witness :
  (exists params rest,
     snd (ServerJs.handler (fails invalid_key_error) sample_body) =
       GenerateContent params
         :: ConsoleError [JStr (js "Gemini API Error:"); own invalid_key_error "message"]
         :: rest /\
     console_errors rest = []) /\
  (exists params rest,
     snd (Part000.handler (fails invalid_key_error) sample_body) =
       GenerateContent params
         :: ConsoleError [JStr (js "Gemini API Error:"); own invalid_key_error "message"]
         :: rest /\
     console_errors rest = []).
Proof.
  pose proof (upstream_error_is_logged (fails invalid_key_error) sample_body
                invalid_key_error eq_refl eq_refl) as [H1 H2].
  split; [apply H1 | apply H2]; intros p _; reflexivity.
Defined.

(** *** A call that is fulfilled with no response *)

(** X12.  When the upstream call is fulfilled with [undefined] or [null],
    reading [response.text] throws inside the [try] block, and the [catch]
    block answers 500: [server.js] with the generic "Internal Server Error",
    [part_000] with the text of the [TypeError] itself. *)
Theorem missing_response_answered_500 (ai : value -> settled) (body r : value) :
  ToBoolean (own body "prompt") = true ->
  nullish r = true ->
  (fulfilled_with ai (ServerJs.handler ai body) r ->
   responses (snd (ServerJs.handler ai body)) =
     [(num 500,
       JObj [("error"%string, JStr (js "Failed to call Gemini API: Internal Server Error"));
             ("message"%string, JStr (js "Internal Server Error"));
             ("code"%string, num 500)])]) /\
  (fulfilled_with ai (Part000.handler ai body) r ->
   responses (snd (Part000.handler ai body)) =
     [(num 500,
       JObj [("error"%string,
              JStr (js "Failed to call Gemini API: " ++ no_response_message r));
             ("code"%string, num 500)])]).
Proof.
  intros Hp Hr. split; intros Hf.
  - pose proof (Hf (ServerJs_params body)) as H.
    rewrite (ServerJs_upstream_calls _ _ Hp) in H.
    rewrite (ServerJs_handler_run _ _ Hp), H; [|left; reflexivity].
    destruct r; try discriminate; reflexivity.
  - pose proof (Hf (Part000_params body)) as H.
    rewrite (Part000_upstream_calls _ _ Hp) in H.
    rewrite (Part000_handler_run _ _ Hp), H; [|left; reflexivity].
    destruct r; try discriminate; reflexivity.
Qed.

(** The theorem at a sample input. *)
Lemma missing_response_answered_500_witness :
  responses (snd (ServerJs.handler (answers JUndefined) sample_body)) =
    [(num 500,
      JObj [("error"%string, JStr (js "Failed to call Gemini API: Internal Server Error"));
            ("message"%string, JStr (js "Internal Server Error"));
            ("code"%string, num 500)])] /\
  responses (snd (Part000.handler (answers JUndefined) sample_body)) =
    [(num 500,
      JObj [("error"%string,
             JStr (js "Failed to call Gemini API: " ++ no_response_message JUndefined));
            ("code"%string, num 500)])].
Proof.
  pose proof (missing_response_answered_500 (answers JUndefined) sample_body JUndefined
                eq_refl eq_refl) as [H1 H2].
  split; [apply H1 | apply H2]; intros p _; reflexivity.
Defined.

(** *** What a run depends on *)

Lemma js_or_same_option a b d : same_option a b -> js_or a d = js_or b d.
Proof.
  intros [-> | [Ha Hb]]; [reflexivity|]. unfold js_or. rewrite Ha, Hb. reflexivity.
Qed.

(** X13.  The handler of [server.js] reads [prompt], [model] and [isJson]
    and nothing else of the body: two bodies that agree on these three get
    the same run, whatever else they hold ([options] included). *)
Theorem server_js_reads_three_fields (ai : value -> settled) (body1 body2 : value) :
  nullish body1 = false -> nullish body2 = false ->
  own body1 "prompt" = own body2 "prompt" ->
  own body1 "model" = own body2 "model" ->
  own body1 "isJson" = own body2 "isJson" ->
  ServerJs.handler ai body1 = ServerJs.handler ai body2.
Proof.
  intros Hn1 Hn2 Hprompt Hmodel HisJson.
  destruct (ToBoolean (own body1 "prompt")) eqn:Hp1.
  - assert (ToBoolean (own body2 "prompt") = true) as Hp2 by (rewrite <- Hprompt; exact Hp1).
    rewrite (ServerJs_handler_run _ _ Hp1), (ServerJs_handler_run _ _ Hp2).
    unfold ServerJs_params. rewrite Hprompt, Hmodel, HisJson. reflexivity.
  - assert (ToBoolean (own body2 "prompt") = false) as Hp2 by (rewrite <- Hprompt; exact Hp1).
    rewrite (ServerJs_handler_falsy _ _ Hn1 Hp1), (ServerJs_handler_falsy _ _ Hn2 Hp2).
    reflexivity.
Qed.

(** The theorem at a sample input: a body with options and one without. *)
Lemma server_js_reads_three_fields_witness :
  ServerJs.handler (answers sample_response) sample_body
  = ServerJs.handler (answers sample_response) (JObj [("prompt"%string, JStr (js "hi"))]).
Proof.
  apply server_js_reads_three_fields; reflexivity.
Defined.

(** X14.  The handler of [part_000] reads [prompt], [model], [isJson],
    [options.temperature] and [options.maxOutputTokens] and nothing else,
    and of the two options only what the merge [x || default] keeps: two
    bodies that agree on the first three and whose options are equal or
    both falsy (zero, absent, [null], no [options] at all) get the same
    run. *)
Theorem part_000_reads_five_fields (ai : value -> settled) (body1 body2 : value) :
  nullish body1 = false -> nullish body2 = false ->
  own body1 "prompt" = own body2 "prompt" ->
  own body1 "model" = own body2 "model" ->
  own body1 "isJson" = own body2 "isJson" ->
  same_option (own (own body1 "options") "temperature")
              (own (own body2 "options") "temperature") ->
  same_option (own (own body1 "options") "maxOutputTokens")
              (own (own body2 "options") "maxOutputTokens") ->
  Part000.handler ai body1 = Part000.handler ai body2.
Proof.
  intros Hn1 Hn2 Hprompt Hmodel HisJson Htemp Hmax.
  destruct (ToBoolean (own body1 "prompt")) eqn:Hp1.
  - assert (ToBoolean (own body2 "prompt") = true) as Hp2 by (rewrite <- Hprompt; exact Hp1).
    rewrite (Part000_handler_run _ _ Hp1), (Part000_handler_run _ _ Hp2).
    unfold Part000_params.
    rewrite Hprompt, Hmodel, HisJson, (js_or_same_option _ _ _ Htemp),
      (js_or_same_option _ _ _ Hmax).
    reflexivity.
  - assert (ToBoolean (own body2 "prompt") = false) as Hp2 by (rewrite <- Hprompt; exact Hp1).
    rewrite (Part000_handler_falsy _ _ Hn1 Hp1), (Part000_handler_falsy _ _ Hn2 Hp2).
    reflexivity.
Qed.

(** The theorem at a sample input: options that are zero, and no options. *)
Lemma part_000_reads_five_fields_witness :
  Part000.handler (answers sample_response) zero_options_body
  = Part000.handler (answers sample_response)
      (JObj [("prompt"%string, JStr (js "hi")); ("isJson"%string, JBool true)]).
Proof.
  apply part_000_reads_five_fields; try reflexivity; right; split; reflexivity.
Defined.

(** X15.  What the [catch] block of [server.js] answers depends on the
    error's [response] only: two errors (neither [undefined] nor [null])
    with the same [response] get the same completion and the same response,
    whatever their messages are; the message only goes to the log. *)
Theorem server_js_answer_from_error_response (e1 e2 : value) :
  nullish e1 = false -> nullish e2 = false ->
  own e1 "response" = own e2 "response" ->
  fst (ServerJs.on_error e1) = fst (ServerJs.on_error e2) /\
  responses (snd (ServerJs.on_error e1)) = responses (snd (ServerJs.on_error e2)).
Proof.
  intros Hn1 Hn2 Hr. unfold ServerJs.on_error.
  rewrite (Get_own _ _ Hn1), (Get_own _ _ Hn2), !bind_pure_normal.
  unfold console_error. rewrite !bind_emit. unfold after. cbn [fst snd responses].
  rewrite (Get_own _ _ Hn1), (Get_own _ _ Hn2), !bind_pure_normal, <- Hr.
  destruct (ToBoolean (own e1 "response")) eqn:Htruthy.
  - pose proof (truthy_value_not_nullish _ Htruthy) as Hrn.
    rewrite (Get_own _ _ Hrn), !bind_pure_normal.
    destruct (ToBoolean (own (own e1 "response") "status")) eqn:Hst;
      repeat first [ rewrite bind_pure_normal | rewrite bind_ret
                   | rewrite (Get_own _ _ Hn1) | rewrite (Get_own _ _ Hn2)
                   | rewrite <- Hr | rewrite Htruthy | rewrite (Get_own _ _ Hrn) ];
      (destruct (ToBoolean (own (own e1 "response") "data")) eqn:Hd;
       [ pose proof (truthy_value_not_nullish _ Hd) as Hdn
       | ]);
      repeat first [ rewrite bind_pure_normal | rewrite bind_ret
                   | rewrite (Get_own _ _ Hn1) | rewrite (Get_own _ _ Hn2)
                   | rewrite <- Hr | rewrite (Get_own _ _ Hrn)
                   | rewrite (Get_own _ _ Hdn) ];
      split; reflexivity.
  - repeat first [ rewrite bind_pure_normal | rewrite bind_ret
                 | rewrite (Get_own _ _ Hn1) | rewrite (Get_own _ _ Hn2)
                 | rewrite <- Hr | rewrite Htruthy ];
      split; reflexivity.
Qed.

(** The theorem at a sample input: two errors with no response. *)
Lemma server_js_answer_from_error_response_witness :
  fst (ServerJs.on_error invalid_key_error) = fst (ServerJs.on_error quota_error) /\
  responses (snd (ServerJs.on_error invalid_key_error))
    = responses (snd (ServerJs.on_error quota_error)).
Proof. apply server_js_answer_from_error_response; reflexivity. Defined.

(** *** All or nothing *)

(** X16.  The [catch] block of [part_000] is all or nothing.  When the
    upstream call fails with an error whose [message] is a string, or an
    array that holds the string "API_KEY_INVALID", the handler returns
    normally with exactly one response sent; with any other error (none at
    all, no [message], a number, an object, another array) it throws a
    [TypeError] and has sent no response. *)
Theorem part_000_catch_all_or_nothing (ai : value -> settled) (body e : value) :
  ToBoolean (own body "prompt") = true ->
  rejected_with ai (Part000.handler ai body) e ->
  if part_000_readable e then answered_once (Part000.handler ai body)
  else threw_unanswered (Part000.handler ai body).
Proof.
  intros Hp Hrej. rewrite (rejected_with_Part000 _ _ _ Hp Hrej).
  pose proof (Part000_on_error_cases e) as H.
  destruct (part_000_readable e); exact H.
Qed.

(** The theorem at sample inputs: an array as message, with and without the
    key. *)
Lemma part_000_catch_all_or_nothing_witness :
  answered_once
    (Part000.handler
       (fails (JObj [("message"%string, JArr [JStr (js "API_KEY_INVALID")])])) sample_body) /\
  threw_unanswered
    (Part000.handler (fails (JObj [("message"%string, JArr [])])) sample_body).
Proof.
  split.
  - apply (part_000_catch_all_or_nothing
             (fails (JObj [("message"%string, JArr [JStr (js "API_KEY_INVALID")])]))
             sample_body (JObj [("message"%string, JArr [JStr (js "API_KEY_INVALID")])]));
      [reflexivity | intros p _; reflexivity].
  - apply (part_000_catch_all_or_nothing
             (fails (JObj [("message"%string, JArr [])]))
             sample_body (JObj [("message"%string, JArr [])]));
      [reflexivity | intros p _; reflexivity].
Defined.

(** X17.  The [catch] block of [server.js] is all or nothing.  When the
    upstream call fails with an error that is not [undefined] or [null],
    that, if its [response] and [response.data] are truthy, has in the data
    an [error] that is not [undefined] or [null], whose relayed message
    converts to a string, and whose recovered status is an integer from 100
    to 999, the handler returns normally with exactly one response sent;
    with any other error (a data without [error], or the status 1000, for
    one) it throws a [TypeError] or the [RangeError] of [res.status] and has
    sent no response. *)
Theorem server_js_catch_all_or_nothing (ai : value -> settled) (body e : value) :
  ToBoolean (own body "prompt") = true ->
  rejected_with ai (ServerJs.handler ai body) e ->
  if server_js_readable e then answered_once (ServerJs.handler ai body)
  else threw_error_unanswered (ServerJs.handler ai body).
Proof.
  intros Hp Hrej. rewrite (rejected_with_ServerJs _ _ _ Hp Hrej).
  pose proof (ServerJs_on_error_cases e) as H.
  destruct (server_js_readable e).
  - destruct H as (text & _ & ->). split; [reflexivity | eexists _, _; reflexivity].
  - exact H.
Qed.

(** The theorem at sample inputs: a response whose data holds an error, one
    whose data is a text, and one whose status is 1000. *)
Lemma server_js_catch_all_or_nothing_witness :
  answered_once
    (ServerJs.handler
       (fails (data_error (JObj [("error"%string, JObj [("message"%string, num 502)])])))
       sample_body) /\
  threw_error_unanswered
    (ServerJs.handler (fails (data_error (JStr (js "Bad Gateway")))) sample_body) /\
  threw_error_unanswered (ServerJs.handler (fails status_1000_error) sample_body).
Proof.
  split; [|split].
  - apply (server_js_catch_all_or_nothing
             (fails (data_error (JObj [("error"%string, JObj [("message"%string, num 502)])])))
             sample_body
             (data_error (JObj [("error"%string, JObj [("message"%string, num 502)])])));
      [reflexivity | intros p _; reflexivity].
  - apply (server_js_catch_all_or_nothing
             (fails (data_error (JStr (js "Bad Gateway")))) sample_body
             (data_error (JStr (js "Bad Gateway"))));
      [reflexivity | intros p _; reflexivity].
  - apply (server_js_catch_all_or_nothing (fails status_1000_error) sample_body
             status_1000_error);
      [reflexivity | intros p _; reflexivity].
Defined.

(** X18.  The handler never answers twice: for every body and every
    upstream, a run sends at most one response; in both files. *)
Theorem never_two_responses (ai : value -> settled) (body : value) :
  (length (responses (snd (ServerJs.handler ai body))) <= 1)%nat /\
  (length (responses (snd (Part000.handler ai body))) <= 1)%nat.
Proof.
  destruct (nullish body) eqn:Hn.
  { destruct body; try discriminate; split; simpl; lia. }
  destruct (ToBoolean (own body "prompt")) eqn:Hp.
  - split.
    + rewrite (ServerJs_handler_run _ _ Hp).
      destruct (ai (ServerJs_params body)) as [r|e]; [destruct (Get r "text") as [t|e|n]|];
        try (simpl; lia); apply (server_js_responses_le e).
    + rewrite (Part000_handler_run _ _ Hp).
      destruct (ai (Part000_params body)) as [r|e]; [destruct (Get r "text") as [t|e|n]|];
        try (simpl; lia);
        apply (on_error_responses_le (after _ (Part000.on_error e)) (part_000_readable e));
        pose proof (Part000_on_error_cases e) as H;
        destruct (part_000_readable e); exact H.
  - rewrite (ServerJs_handler_falsy _ _ Hn Hp), (Part000_handler_falsy _ _ Hn Hp).
    split; simpl; lia.
Qed.

(** *** The port *)

(** X19.  With a key that is set and not empty, the process listens on the
    value of [PORT] as the environment gives it (a string, not parsed), and
    on the number 3000 when [PORT] is unset or empty; in both files. *)
Theorem listening_port (env : gmap string jsstring) (c : N) (key : jsstring) :
  env !! "GEMINI_API_KEY"%string = Some (c :: key) ->
  ((env !! "PORT"%string = None \/ env !! "PORT"%string = Some []) ->
   listens (snd (ServerJs.main env)) = [num 3000] /\
   listens (snd (Part000.main env)) = [num 3000]) /\
  (forall d port, env !! "PORT"%string = Some (d :: port) ->
   listens (snd (ServerJs.main env)) = [JStr (d :: port)] /\
   listens (snd (Part000.main env)) = [JStr (d :: port)]).
Proof.
  intros Hkey.
  assert (env_get env "GEMINI_API_KEY" = JStr (c :: key)) as Hk
    by (unfold env_get; rewrite Hkey; reflexivity).
  unfold ServerJs.main, Part000.main. rewrite Hk. split.
  - intros Hport.
    assert (js_or (env_get env "PORT") (num 3000) = num 3000) as ->
      by (unfold env_get; destruct Hport as [-> | ->]; reflexivity).
    split; reflexivity.
  - intros d port Hport.
    assert (js_or (env_get env "PORT") (num 3000) = JStr (d :: port)) as ->
      by (unfold env_get; rewrite Hport; reflexivity).
    split; reflexivity.
Qed.

(** The theorem at a sample input: [PORT] set to "8080". *)
Lemma listening_port_witness :
  listens (snd (ServerJs.main
                  (<["PORT"%string := js "8080"]> {[ "GEMINI_API_KEY"%string := js "secret" ]})))
    = [JStr (js "8080")] /\
  listens (snd (Part000.main
                  (<["PORT"%string := js "8080"]> {[ "GEMINI_API_KEY"%string := js "secret" ]})))
    = [JStr (js "8080")].
Proof.
  pose proof (proj2 (listening_port
                (<["PORT"%string := js "8080"]> {[ "GEMINI_API_KEY"%string := js "secret" ]})
                115%N (js "ecret") eq_refl) 56%N (js "080") eq_refl) as H.
  vm_compute in H |- *. exact H.
Defined.
